(** * TensorRT compiler strategies of nebullvm: a shallow embedding

    Source: [nebullvm/operations/optimizations/compilers/tensor_rt.py].

    The file embeds the two concrete compilers, [PyTorchTensorRTCompiler]
    (the native-graph strategy) and [ONNXTensorRTCompiler] (the
    interchange-format strategy), as programs of a state-and-exception
    monad over an explicit world: the file system, the heap of torch
    modules, the transformation pipelines, the attributes of the compiler
    object and the log of calls made to the logger, the data source and the
    backends.  The backends themselves (torch, torch_tensorrt, tensorrt,
    onnxsim) are opaque: they are the fields of a record of oracles. *)

From stdpp Require Import gmap strings list fin_maps.

Open Scope Z_scope.

(** ** Data model *)

(** Modelled from the spec: the enumeration [QuantizationType] of
    [nebullvm.tools.base] is only imported by the source.  The source names
    its members [STATIC] and [HALF]; [DYNAMIC] stands for a member that is
    neither (the "other" of the precision negotiation). *)
Inductive QuantizationType := DYNAMIC | STATIC | HALF.

#[global] Instance QuantizationType_eq_dec : EqDecision QuantizationType.
Proof. solve_decision. Defined.

(** Modelled from the spec: the device classes, [self.device] of the base
    class [Compiler]; [device_value] is the enumeration's [.value]. *)
Inductive DeviceType := CPU | GPU.

Definition device_value (d : DeviceType) : string :=
  match d with CPU => "cpu" | GPU => "gpu" end.

Inductive DType :=
  | torch_float32 | torch_half | torch_float64
  | torch_int8 | torch_int32 | torch_int64 | torch_bool.

#[global] Instance DType_eq_dec : EqDecision DType.
Proof. solve_decision. Defined.

Record Tensor := mkTensor {
  t_dtype : DType;
  t_shape : list Z;
  t_cuda : bool
}.

(** [tensor.cuda()] and [tensor.to(dtype)] return new tensors. *)
Definition tensor_cuda (t : Tensor) : Tensor :=
  mkTensor (t_dtype t) (t_shape t) true.

Definition tensor_to (d : DType) (t : Tensor) : Tensor :=
  mkTensor d (t_shape t) (t_cuda t).

(** One sample of a data source: the tuple of a model's input tensors. *)
Definition Sample := list Tensor.

(** Modelled from the spec: [InputInfo], [DynamicAxisInfo] and
    [ModelParams] of [nebullvm.tools.base]: the static size of an input
    (batch dimension excluded), its optional per-dimension minimum bounds,
    and per input the set of its dynamic dimensions. *)
Module InputInfo.
Record t := mk {
    size : list Z;
    min_sizes : option (gmap Z Z)
  }.
End InputInfo.

Record DynamicAxisInfo := mkDynamicAxisInfo {
  inputs : list (gset Z)
}.

Record ModelParams := mkModelParams {
  batch_size : Z;
  input_infos : list InputInfo.t;
  dynamic_info : option DynamicAxisInfo
}.

(** ** The dynamic-shape profile of [ONNXTensorRTCompiler._compile_model] *)

(** One [profile.set_shape(name, min, opt, max)] call. *)
Record ShapeTriple := mkShapeTriple {
  st_name : string;
  st_min : list Z;
  st_opt : list Z;
  st_max : list Z
}.

(** The first tuple handed to [set_shape] (lines 337-347): the generator
    over [enumerate(input_info.size)] is [imap]. *)
Definition profile_min (bs : Z) (input_dynamic_info : gset Z)
    (input_info : InputInfo.t) : list Z :=
  (if bool_decide (0 ∈ input_dynamic_info) then Z.min bs 1 else bs)
  :: imap (λ i shape,
       if bool_decide (Z.of_nat i + 1 ∉ input_dynamic_info) then shape
       else default 1
              (default ∅ (InputInfo.min_sizes input_info) !! (Z.of_nat i + 1)))
     (InputInfo.size input_info).

(** The second and third tuples (lines 348-349). *)
Definition profile_opt (bs : Z) (input_info : InputInfo.t) : list Z :=
  bs :: InputInfo.size input_info.

Definition set_shape_args (bs : Z)
    (x : string * (gset Z * InputInfo.t)) : ShapeTriple :=
  let '(input_name, (input_dynamic_info, input_info)) := x in
  mkShapeTriple input_name
    (profile_min bs input_dynamic_info input_info)
    (profile_opt bs input_info)
    (profile_opt bs input_info).

(** The loop of lines 330-350: Python's [zip] of the three sequences stops
    at the shortest. *)
Definition build_profile (names : list string) (mp : ModelParams)
    (di : DynamicAxisInfo) : list ShapeTriple :=
  set_shape_args (batch_size mp)
    <$> zip names (zip (inputs di) (input_infos mp)).

(** ** Objects of the backends *)

(** A torch module as far as this file acts on it: the precision of its
    parameters, whether they live on the accelerator, and the training
    flag. *)
Record ModuleState := mkModule {
  m_dtype : DType;
  m_cuda : bool;
  m_training : bool
}.

(** [model.cuda().eval()] acts in place. *)
Definition cuda_eval (s : ModuleState) : ModuleState :=
  mkModule (m_dtype s) true false.

(** [module.half()] acts in place. *)
Definition half (s : ModuleState) : ModuleState :=
  mkModule torch_half (m_cuda s) (m_training s).

(** A model value: the module itself or the module [torch.jit.trace] made
    of it; both refer to the parameters stored at [storage] in the heap. *)
Inductive ModelObj :=
  | NNModule (storage : nat)
  | TracedModule (storage : nat).

Definition storage_of (m : ModelObj) : nat :=
  match m with NNModule l | TracedModule l => l end.

Definition with_storage (m : ModelObj) (l : nat) : ModelObj :=
  match m with NNModule _ => NNModule l | TracedModule _ => TracedModule l end.

Inductive Transformation :=
  | HalfPrecisionTransformation
  | OtherTransformation (tag : nat).

#[global] Instance Transformation_eq_dec : EqDecision Transformation.
Proof. solve_decision. Defined.

Inductive CalibrationAlgo := ENTROPY_CALIBRATION_2 | OTHER_CALIBRATION.

(** [torch_tensorrt.ptq.DataLoaderCalibrator] over the [DataLoader] of lines
    105-110. *)
Record Calibrator := mkCalibrator {
  cal_dataset : list Sample;
  cal_batch_size : Z;
  cal_shuffle : bool;
  cal_num_workers : Z;
  cal_use_cache : bool;
  cal_algo_type : CalibrationAlgo;
  cal_device : string
}.

(** [torch_tensorrt.Input(shape, dtype=...)]. *)
Record InputSpec := mkInput {
  in_shape : list Z;
  in_dtype : DType
}.

(** What a backend hands back: the compiled module or the serialized
    engine. *)
Inductive Artifact := Engine (handle : nat).

Record BuilderConfig := mkBuilderConfig {
  cfg_memory_pool_limit : option Z;
  cfg_quantization : option QuantizationType;
  cfg_calibration_data : option (list Sample);
  cfg_profiles : list (list ShapeTriple)
}.

Record Network := mkNetwork {
  net_flags : Z;
  net_parsed_from : option string
}.

(** Modelled from the spec: [DataManager] of [nebullvm.tools.data], "a
    bounded, iterable collection of representative input tensors, split
    into named partitions". *)
Record DataManager := mkDataManager {
  dm_samples : list Sample;
  dm_split : string → list Sample;
  dm_batch_size : Z
}.

Inductive Exception :=
  | ValueError (msg : string)
  | AttributeError (msg : string)
  | IndexError (msg : string)
  | KeyError (msg : string)
  | ImportError (msg : string)
  | BackendError (msg : string).

(** ** The log of a call *)

Inductive Event :=
  | LogInfo (msg : string)
  | LogWarning (msg : string)
  | LogDebug (msg : string)
  | DataGetSplit (name : string)
  | DataGetList (n : nat)
  | DataGetNumpyList (n : nat)
  | JitScript (model : ModelObj)
  | JitTrace (model : ModelObj) (input_tensors : list Tensor)
  | TrtCompile (model : ModelObj) (specs : list InputSpec)
      (enabled_precisions : list DType) (calibrator : option Calibrator)
  | OsRemove (path : string)
  | SubprocessRun (cmd : list string)
  | TrtBuilder
  | CreateNetwork (flags : Z)
  | CreateBuilderConfig
  | SetMemoryPoolLimit (limit : Z)
  | QuantizeTensorrt (q : QuantizationType)
  | ParseFromFile (path : string) (success : bool)
  | CreateOptimizationProfile
  | SetShape (t : ShapeTriple)
  | AddOptimizationProfile
  | BuildSerializedNetwork
  | SetCompiledModel (v : option Artifact)
  | SetModelOrig (path : string).

(** ** The world and the monad *)

Record World := mkWorld {
  fs : gset string;
  heap : gmap nat ModuleState;
  pipelines : gmap nat (list Transformation);
  compiled_model : option Artifact;
  model_orig : option string
}.

Inductive Result (A : Type) :=
  | Ok (a : A)
  | Raise (e : Exception).
Arguments Ok {A} a.
Arguments Raise {A} e.

Record Outcome (A : Type) := mkOutcome {
  result : Result A;
  final : World;
  events : list Event
}.
Arguments mkOutcome {A} _ _ _.
Arguments result {A} _.
Arguments final {A} _.
Arguments events {A} _.

Definition M (A : Type) : Type := World → Outcome A.

#[global] Instance M_ret : MRet M := λ A a w, mkOutcome (Ok a) w [].

#[global] Instance M_bind : MBind M := λ A B f m w,
  match m w with
  | mkOutcome (Ok a) w1 ev1 =>
      match f a w1 with
      | mkOutcome r w2 ev2 => mkOutcome r w2 (ev1 ++ ev2)
      end
  | mkOutcome (Raise e) w1 ev1 => mkOutcome (Raise e) w1 ev1
  end.

Definition raise {A} (e : Exception) : M A := λ w, mkOutcome (Raise e) w [].

Definition emit (ev : Event) : M unit := λ w, mkOutcome (Ok tt) w [ev].

Definition get_world : M World := λ w, mkOutcome (Ok w) w [].

Definition modify (f : World → World) : M unit := λ w, mkOutcome (Ok tt) (f w) [].

(** [try: m except E: h], where [catches] tells the exceptions of class
    [E]. *)
Definition try_except {A} (catches : Exception → bool) (m : M A)
    (h : M A) : M A := λ w,
  match m w with
  | mkOutcome (Ok a) w1 ev1 => mkOutcome (Ok a) w1 ev1
  | mkOutcome (Raise e) w1 ev1 =>
      if catches e then
        match h w1 with
        | mkOutcome r w2 ev2 => mkOutcome r w2 (ev1 ++ ev2)
        end
      else mkOutcome (Raise e) w1 ev1
  end.

Definition any_exception (e : Exception) : bool := true.

Definition is_AttributeError (e : Exception) : bool :=
  match e with AttributeError _ => true | _ => false end.

Definition set_fs (f : gset string) (w : World) : World :=
  mkWorld f (heap w) (pipelines w) (compiled_model w) (model_orig w).
Definition set_heap (h : gmap nat ModuleState) (w : World) : World :=
  mkWorld (fs w) h (pipelines w) (compiled_model w) (model_orig w).
Definition set_pipelines (p : gmap nat (list Transformation)) (w : World) : World :=
  mkWorld (fs w) (heap w) p (compiled_model w) (model_orig w).
Definition set_compiled_model (v : option Artifact) (w : World) : World :=
  mkWorld (fs w) (heap w) (pipelines w) v (model_orig w).
Definition set_model_orig (v : option string) (w : World) : World :=
  mkWorld (fs w) (heap w) (pipelines w) (compiled_model w) v.

(** ** The opaque collaborators *)

(** Modelled from the spec: what the source imports and calls but does not
    define: the two constants of [nebullvm.config], [check_quantization],
    [quantize_tensorrt], [get_input_names], and the entry points of torch,
    torch_tensorrt, tensorrt and onnxsim.  Each is an oracle: it may raise,
    and those that touch the disk return the new set of files.  The last
    field is the random draw behind the data source:
    [np_random_choice a size j] is the [j]-th of the [size] indices that
    [np.random.choice(a, size, replace=True)] draws. *)
Record Backend := mkBackend {
  QUANTIZATION_DATA_NUM : nat;
  TORCH_TENSORRT_PRECISIONS : DType → list DType;
  check_quantization :
    option QuantizationType → option Qcanon.Qc → Result unit;
  torch_jit_script : gmap nat ModuleState → ModelObj → Result unit;
  torch_jit_trace :
    gmap nat ModuleState → ModelObj → list Tensor → Result unit;
  torch_tensorrt_compile :
    gmap nat ModuleState → ModelObj → list InputSpec → list DType →
    option Calibrator → gset string → Result Artifact * gset string;
  onnxsim_importable : bool;
  subprocess_run : list string → gset string → Result Z * gset string;
  has_set_memory_pool_limit : bool;
  quantize_tensorrt :
    QuantizationType → ModelParams → BuilderConfig → option (list Sample) →
    Result (BuilderConfig * list Transformation);
  parse_from_file : string → gset string → bool * list string;
  get_input_names : string → list string;
  build_serialized_network : Network → BuilderConfig → Result Artifact;
  np_random_choice : nat → nat → nat → nat
}.

Definition lift {A} (r : Result A) : M A := λ w, mkOutcome r w [].

(** ** What both strategies share *)

(** [TensorRTCompiler.supported_ops], lines 38-45. *)
Definition supported_ops : gmap string (list (option QuantizationType)) :=
  {[ "cpu" := []; "gpu" := [None; Some STATIC; Some HALF] ]}.

(** [quantization_type in self.supported_ops[self.device.value]]. *)
Definition supported (device : DeviceType)
    (quantization_type : option QuantizationType) : M bool :=
  match supported_ops !! device_value device with
  | Some ops => mret (bool_decide (quantization_type ∈ ops))
  | None => raise (KeyError (device_value device))
  end.

Definition self_set_compiled_model (v : option Artifact) : M unit :=
  modify (set_compiled_model v);; emit (SetCompiledModel v).

Definition self_set_model_orig (path : string) : M unit :=
  modify (set_model_orig (Some path));; emit (SetModelOrig path).

Definition str_quantization_type (q : option QuantizationType) : string :=
  match q with
  | None => "None"
  | Some DYNAMIC => "QuantizationType.DYNAMIC"
  | Some STATIC => "QuantizationType.STATIC"
  | Some HALF => "QuantizationType.HALF"
  end.

Definition is_STATIC (q : option QuantizationType) : bool :=
  bool_decide (q = Some STATIC).

Definition is_None {A} (x : option A) : bool :=
  match x with None => true | Some _ => false end.

Definition logger_info (class_name : string)
    (quantization_type : option QuantizationType) : M unit :=
  emit (LogInfo ("Optimizing with " +:+ class_name +:+ " and q_type: "
                 +:+ str_quantization_type quantization_type +:+ ".")).

(** Attribute access on the data source: on [None] Python raises. *)
Definition attr (input_data : option DataManager) (name : string)
    : M DataManager :=
  match input_data with
  | Some d => mret d
  | None =>
      raise (AttributeError
               ("'NoneType' object has no attribute '" +:+ name +:+ "'"))
  end.

(** Modelled from the spec: [DataManager.get_split] of
    [nebullvm.tools.data], the named partition of the collection, itself a
    data source. *)
Definition get_split (input_data : option DataManager) (name : string)
    : M DataManager :=
  d ← attr input_data "get_split";
  emit (DataGetSplit name);;
  mret (mkDataManager (dm_split d name) (dm_split d) (dm_batch_size d)).

(** Modelled from the spec: the "bounded, fixed-size sample" that the
    extraction methods of [DataManager] return: exactly [n] samples, the
    first [min n len] of the collection in order followed, when the
    collection is shorter, by [n - len] of its samples drawn at random with
    repetition (each index of the draw is taken below [len]).  An empty
    collection has nothing to draw from: the draw raises the [ValueError]
    of [np.random.choice]. *)
Definition fixed_size_sample (B : Backend) (samples : list Sample) (n : nat)
    : M (list Sample) :=
  if bool_decide (length samples < n)%nat then
    match samples with
    | [] =>
        raise (ValueError
                 "a must be greater than 0 unless no samples are taken")
    | first :: _ =>
        let size := (n - length samples)%nat in
        let drawn j :=
          Nat.modulo (np_random_choice B (length samples) size j)
            (length samples) in
        mret (samples
              ++ ((λ j, default first (samples !! drawn j)) <$> seq 0 size))
    end
  else mret (take n samples).

(** Modelled from the spec: [DataManager.get_list(n)], the fixed-size
    sample of the collection. *)
Definition get_list (B : Backend) (input_data : option DataManager) (n : nat)
    : M (list Sample) :=
  d ← attr input_data "get_list";
  emit (DataGetList n);;
  fixed_size_sample B (dm_samples d) n.

(** Modelled from the spec: [DataManager.get_numpy_list(n)], "a
    bounded-size numeric-array extraction method": the same sample, each
    tensor as a numeric array. *)
Definition get_numpy_list (B : Backend) (d : DataManager) (n : nat)
    : M (list Sample) :=
  emit (DataGetNumpyList n);;
  fixed_size_sample B (dm_samples d) n.

(** [l[0]]. *)
Definition item0 {A} (l : list A) : M A :=
  match l with
  | x :: _ => mret x
  | [] => raise (IndexError "list index out of range")
  end.

(** [input_tfms.append(t)]: the pipeline is the caller's object. *)
Definition tfms_append (input_tfms : option nat) (t : Transformation)
    : M unit :=
  match input_tfms with
  | Some p =>
      modify (λ w, set_pipelines (alter (λ l, l ++ [t]) p (pipelines w)) w)
  | None =>
      raise (AttributeError "'NoneType' object has no attribute 'append'")
  end.

(** ** The native-graph strategy *)

Module PyTorchTensorRTCompiler.
Section Methods.
Context (B : Backend) (device : DeviceType).

  (** Lines 122-127. *)
Definition to_backend_tensor (tensor : Tensor) : Tensor :=
    if bool_decide (t_dtype tensor ≠ torch_int64) then tensor_cuda tensor
    else tensor_cuda (tensor_to torch_int32 tensor).

  (** Lines 161-169. *)
Definition input_spec (dtype : DType) (tensor : Tensor) : InputSpec :=
    mkInput (t_shape tensor)
      (if bool_decide (dtype = torch_half)
          && bool_decide (t_dtype tensor ∉ [torch_int8; torch_int32])
       then torch_half else t_dtype tensor).

Definition jit_script (model : ModelObj) : M unit :=
    w ← get_world;
    emit (JitScript model);;
    lift (torch_jit_script B (heap w) model).

Definition jit_trace (model : ModelObj) (input_tensors : list Tensor)
      : M ModelObj :=
    w ← get_world;
    emit (JitTrace model input_tensors);;
    lift (torch_jit_trace B (heap w) model input_tensors);;
    mret (TracedModule (storage_of model)).

  (** [copy.deepcopy(model)]: fresh storage holding a copy. *)
Definition deepcopy (model : ModelObj) : M ModelObj :=
    w ← get_world;
    let l := fresh (dom (heap w)) in
    match heap w !! storage_of model with
    | Some s =>
        modify (set_heap (<[l := s]> (heap w)));;
        mret (with_storage model l)
    | None =>
        raise (AttributeError "deepcopy of a model that is not in the heap")
    end.

Definition module_half (model : ModelObj) : M ModelObj :=
    modify (λ w, set_heap (alter half (storage_of model) (heap w)) w);;
    mret model.

Definition compile_call (model : ModelObj) (specs : list InputSpec)
      (precisions : list DType) (calibrator : option Calibrator)
      : M Artifact := λ w,
    let r := torch_tensorrt_compile B (heap w) model specs precisions
               calibrator (fs w) in
    mkOutcome r.1 (set_fs r.2 w)
      [TrtCompile model specs precisions calibrator].

Definition os_remove (path : string) : M unit :=
    modify (λ w, set_fs (fs w ∖ {[path]}) w);; emit (OsRemove path).

  (** Lines 139-191. *)
Definition _compile_model (model : ModelObj) (input_tensors : list Tensor)
      (dtype : DType) (calibrator : option Calibrator)
      (quantization_type : option QuantizationType) : M Artifact :=
    modify (λ w, set_heap (alter cuda_eval (storage_of model) (heap w)) w);;
    model ← try_except any_exception
               (jit_script model;; mret model)
               (jit_trace model input_tensors);
    to_compile ← (if bool_decide (dtype ≠ torch_half) then mret model
                  else deepcopy model ≫= module_half);
    trt_model ← compile_call to_compile
                   (input_spec dtype <$> input_tensors)
                   (TORCH_TENSORRT_PRECISIONS B dtype)
                   (if is_STATIC quantization_type then calibrator else None);
    w ← get_world;
    (if bool_decide ("calibration.cache" ∈ fs w)
     then os_remove "calibration.cache" else mret tt);;
    mret trt_model.

  (** Lines 104-117. *)
Definition make_calibrator (input_data : option DataManager)
      : M Calibrator :=
    dataset ← get_split input_data "train";
    mret (mkCalibrator (dm_samples dataset) (dm_batch_size dataset)
            false 0 false ENTROPY_CALIBRATION_2 "cuda:0").

  (** Lines 57-137. *)
Definition execute (model : nat) (model_params : ModelParams)
      (input_tfms : option nat) (metric_drop_ths : option Qcanon.Qc)
      (quantization_type : option QuantizationType)
      (input_data : option DataManager) : M unit :=
    ok ← supported device quantization_type;
    if negb ok then self_set_compiled_model None
    else if is_STATIC quantization_type && is_None input_data then
      raise (ValueError "Input data is required for static quantization.")
    else
      logger_info "PyTorchTensorRTCompiler" quantization_type;;
      lift (check_quantization B quantization_type metric_drop_ths);;
      '(dtype, calibrator) ←
        match quantization_type with
        | Some HALF =>
            tfms_append input_tfms HalfPrecisionTransformation;;
            mret (torch_half, None)
        | Some STATIC =>
            calibrator ← make_calibrator input_data;
            mret (torch_int8, Some calibrator)
        | _ => mret (torch_float32, None)
        end;
      samples ← get_list B input_data 1;
      sample ← item0 samples;
      trt_model ← _compile_model (NNModule model)
                     (to_backend_tensor <$> sample) dtype
                     (if is_STATIC quantization_type then calibrator else None)
                     quantization_type;
      self_set_compiled_model (Some trt_model).
End Methods.
End PyTorchTensorRTCompiler.

(** ** The interchange-format strategy *)

(** [int(trt.NetworkDefinitionCreationFlag.EXPLICIT_BATCH)], a constant of
    tensorrt. *)
Definition EXPLICIT_BATCH : Z := 0.

Module ONNXTensorRTCompiler.
Section Methods.
Context (B : Backend) (device : DeviceType).

  (** [Path(p).is_file()]. *)
Definition is_file (p : string) : M bool :=
    w ← get_world; mret (bool_decide (p ∈ fs w)).

Definition import_onnxsim : M unit :=
    if onnxsim_importable B then mret tt
    else raise (ImportError "No module named 'onnxsim'").

  (** [subprocess.run(cmd, stdout=subprocess.DEVNULL)]: without [check=True]
      the exit status is returned, not raised. *)
Definition run (cmd : list string) : M Z := λ w,
    let r := subprocess_run B cmd (fs w) in
    mkOutcome r.1 (set_fs r.2 w) [SubprocessRun cmd].

  (** Lines 247-265. *)
Definition simplify (model : string) : M string :=
    try_except any_exception
      (import_onnxsim;;
       let simplified_model := model +:+ "_simplified" in
       exists_already ← is_file simplified_model;
       (if negb exists_already
        then run ["onnxsim"; model; simplified_model];; mret tt
        else mret tt);;
       mret simplified_model)
      (mret model).

  (** Lines 276-285. *)
Definition set_memory_pool_limit (config : BuilderConfig) (limit : Z)
      : M BuilderConfig :=
    if has_set_memory_pool_limit B then
      emit (SetMemoryPoolLimit limit);;
      mret (mkBuilderConfig (Some limit) (cfg_quantization config)
              (cfg_calibration_data config) (cfg_profiles config))
    else
      raise (AttributeError
        "'IBuilderConfig' object has no attribute 'set_memory_pool_limit'").

  (** Lines 354-368. *)
Definition _quantize_model (quantization_type : QuantizationType)
      (model_params : ModelParams) (config : BuilderConfig)
      (input_tfms : option nat) (input_data : option (list Sample))
      : M BuilderConfig :=
    emit (QuantizeTensorrt quantization_type);;
    '(config', appended) ←
      lift (quantize_tensorrt B quantization_type model_params config
              input_data);
    match input_tfms with
    | Some p =>
        modify (λ w,
          set_pipelines (alter (λ l, l ++ appended) p (pipelines w)) w)
    | None => mret tt
    end;;
    mret config'.

  (** The loop of lines 321-322. *)
Fixpoint log_errors (errors : list string) : M unit :=
    match errors with
    | [] => mret tt
    | e :: rest => emit (LogDebug e);; log_errors rest
    end.

Definition parse (network : Network) (onnx_model_path : string)
      : M (bool * list string) :=
    w ← get_world;
    let r := parse_from_file B onnx_model_path (fs w) in
    emit (ParseFromFile onnx_model_path r.1);;
    mret r.

Fixpoint set_shapes (triples : list ShapeTriple) : M unit :=
    match triples with
    | [] => mret tt
    | t :: rest => emit (SetShape t);; set_shapes rest
    end.

  (** Lines 308-352. *)
Definition _compile_model (onnx_model_path : string)
      (model_params : ModelParams) (config : BuilderConfig)
      (network : Network) : M Artifact :=
    '(success, errors) ← parse network onnx_model_path;
    if negb success then
      log_errors errors;;
      raise (ValueError ("Errors occurred while processing the "
                         +:+ "ONNX file at " +:+ onnx_model_path))
    else
      let network := mkNetwork (net_flags network) (Some onnx_model_path) in
      config ←
        match dynamic_info model_params with
        | Some di =>
            emit CreateOptimizationProfile;;
            let profile :=
              build_profile (get_input_names B onnx_model_path)
                model_params di in
            set_shapes profile;;
            emit AddOptimizationProfile;;
            mret (mkBuilderConfig (cfg_memory_pool_limit config)
                    (cfg_quantization config) (cfg_calibration_data config)
                    (cfg_profiles config ++ [profile]))
        | None => mret config
        end;
      emit BuildSerializedNetwork;;
      lift (build_serialized_network B network config).

  (** Lines 203-306. *)
Definition execute (model : string) (model_params : ModelParams)
      (input_tfms : option nat) (metric_drop_ths : option Qcanon.Qc)
      (quantization_type : option QuantizationType)
      (input_data : option DataManager) : M unit :=
    ok ← supported device quantization_type;
    if negb ok then self_set_compiled_model None
    else if is_STATIC quantization_type && is_None input_data then
      raise (ValueError "Input data is required for static quantization.")
    else
      logger_info "ONNXTensorRTCompiler" quantization_type;;
      lift (check_quantization B quantization_type metric_drop_ths);;
      train ← get_split input_data "train";
      train_input_data ← get_numpy_list B train (QUANTIZATION_DATA_NUM B);
      onnx_model_path ← simplify model;
      emit TrtBuilder;;
      let flags := 1 ≪ EXPLICIT_BATCH in
      emit (CreateNetwork flags);;
      let network := mkNetwork flags None in
      emit CreateBuilderConfig;;
      let config := mkBuilderConfig None None None [] in
      config ← try_except is_AttributeError
                  (set_memory_pool_limit config (1 ≪ 30))
                  (emit (LogWarning
                     ("Cannot call method set_memory_pool_limit for TensorRT."
                      +:+ "Please update TensorRT version."));;
                   mret config);
      config ←
        match quantization_type with
        | Some q =>
            _quantize_model q model_params config input_tfms
              (if is_STATIC quantization_type then Some train_input_data
               else None)
        | None => mret config
        end;
      engine ← _compile_model onnx_model_path model_params config network;
      self_set_compiled_model (Some engine);;
      self_set_model_orig onnx_model_path.
End Methods.
End ONNXTensorRTCompiler.

(** ** Observations on the log of a call *)

Fixpoint count (p : Event → bool) (evs : list Event) : nat :=
  match evs with
  | [] => 0%nat
  | e :: rest => ((if p e then 1 else 0) + count p rest)%nat
  end.

(** [self.compiled_model = <a backend's result>]. *)
Definition is_artifact (e : Event) : bool :=
  match e with SetCompiledModel (Some _) => true | _ => false end.

(** [self.compiled_model = None]. *)
Definition is_absent (e : Event) : bool :=
  match e with SetCompiledModel None => true | _ => false end.

Definition is_os_remove (e : Event) : bool :=
  match e with OsRemove _ => true | _ => false end.


(** An event of the two best-effort steps of the interchange-format
    strategy: the simplification command and the memory budget. *)
Definition is_preparation (e : Event) : bool :=
  match e with
  | SubprocessRun _ | SetMemoryPoolLimit _ | LogWarning _ => true
  | _ => false
  end.

(** A read of the sample data source. *)
Definition is_data_access (e : Event) : bool :=
  match e with
  | DataGetSplit _ | DataGetList _ | DataGetNumpyList _ => true
  | _ => false
  end.

(** The triples of the [profile.set_shape] calls of a log, in order. *)
Fixpoint set_shape_calls (evs : list Event) : list ShapeTriple :=
  match evs with
  | [] => []
  | SetShape t :: rest => t :: set_shape_calls rest
  | _ :: rest => set_shape_calls rest
  end.

(** The capability gate as a proposition. *)
Definition in_support_table (device : DeviceType)
    (q : option QuantizationType) : Prop :=
  q ∈ default [] (supported_ops !! device_value device).

#[global] Instance in_support_table_dec device q :
  Decision (in_support_table device q).
Proof. unfold in_support_table. apply _. Defined.

(** The postcondition calculus: [wp m w Q] holds when running [m] from [w]
    gives a result, a final world and a log related by [Q]. *)
Definition wp {A} (m : M A) (w : World)
    (Q : Result A → World → list Event → Prop) : Prop :=
  Q (result (m w)) (final (m w)) (events (m w)).

(** ** Concrete collaborators, to run the strategies on *)

Module Scenario.
  (** A backend on which every step succeeds; its compiler writes the
      calibration cache whenever it is given a calibrator. *)
Definition backend : Backend := {|
    QUANTIZATION_DATA_NUM := 300;
    TORCH_TENSORRT_PRECISIONS := λ d,
      match d with
      | torch_half => [torch_float32; torch_half]
      | torch_int8 => [torch_float32; torch_half; torch_int8]
      | _ => [torch_float32]
      end;
    check_quantization := λ _ _, Ok tt;
    torch_jit_script := λ _ _, Ok tt;
    torch_jit_trace := λ _ _ _, Ok tt;
    torch_tensorrt_compile := λ _ _ _ _ cal files,
      (Ok (Engine 1),
       if is_None cal then files else files ∪ {["calibration.cache"]});
    onnxsim_importable := true;
    subprocess_run := λ cmd files,
      (Ok 0, match cmd with [_; _; out] => files ∪ {[out]} | _ => files end);
    has_set_memory_pool_limit := true;
    quantize_tensorrt := λ q _ config data,
      Ok (mkBuilderConfig (cfg_memory_pool_limit config) (Some q) data
            (cfg_profiles config),
          match q with HALF => [HalfPrecisionTransformation] | _ => [] end);
    parse_from_file := λ path files,
      if bool_decide (path ∈ files) then (true, [])
      else (false, ["Could not open file " +:+ path]);
    get_input_names := λ _, ["input_ids"];
    np_random_choice := λ _ _ _, 0%nat;
    build_serialized_network := λ _ _, Ok (Engine 2)
  |}.

  (** The same, but the embedded compiler fails after calibration has
      written its cache. *)
Definition failing_compile_backend : Backend := {|
    QUANTIZATION_DATA_NUM := QUANTIZATION_DATA_NUM backend;
    TORCH_TENSORRT_PRECISIONS := TORCH_TENSORRT_PRECISIONS backend;
    check_quantization := check_quantization backend;
    torch_jit_script := torch_jit_script backend;
    torch_jit_trace := torch_jit_trace backend;
    torch_tensorrt_compile := λ _ _ _ _ cal files,
      (Raise (BackendError "unsupported operator"),
       if is_None cal then files else files ∪ {["calibration.cache"]});
    onnxsim_importable := onnxsim_importable backend;
    subprocess_run := subprocess_run backend;
    has_set_memory_pool_limit := has_set_memory_pool_limit backend;
    quantize_tensorrt := quantize_tensorrt backend;
    parse_from_file := parse_from_file backend;
    get_input_names := get_input_names backend;
    np_random_choice := np_random_choice backend;
    build_serialized_network := build_serialized_network backend
  |}.

  (** The same, but onnxsim cannot simplify the graph: the command exits
      with status 1 and writes nothing. *)
Definition unsimplifiable_backend : Backend := {|
    QUANTIZATION_DATA_NUM := QUANTIZATION_DATA_NUM backend;
    TORCH_TENSORRT_PRECISIONS := TORCH_TENSORRT_PRECISIONS backend;
    check_quantization := check_quantization backend;
    torch_jit_script := torch_jit_script backend;
    torch_jit_trace := torch_jit_trace backend;
    torch_tensorrt_compile := torch_tensorrt_compile backend;
    onnxsim_importable := true;
    subprocess_run := λ _ files, (Ok 1, files);
    has_set_memory_pool_limit := has_set_memory_pool_limit backend;
    quantize_tensorrt := quantize_tensorrt backend;
    parse_from_file := parse_from_file backend;
    get_input_names := get_input_names backend;
    np_random_choice := np_random_choice backend;
    build_serialized_network := build_serialized_network backend
  |}.

Definition token_ids : Tensor := mkTensor torch_int64 [1; 128] false.
Definition pixels : Tensor := mkTensor torch_float32 [1; 3; 224; 224] false.

Definition data : DataManager :=
    mkDataManager [[token_ids; pixels]] (λ _, [[token_ids; pixels]]) 1.

  (** The model is module 0, on the cpu and in training mode; pipeline 0
      holds one transformation; the only file is the serialized graph. *)
Definition original_model : ModuleState := mkModule torch_float32 false true.

Definition world : World :=
    mkWorld {["model.onnx"]} {[ 0%nat := original_model ]}
      {[ 0%nat := [OtherTransformation 7] ]} None None.

Definition params : ModelParams := mkModelParams 1 [] None.

  (** The example of the specification: batch size 8, static size
      [3,224,224], dimensions 0 and 2 dynamic, minimum bound 32 on
      dimension 2. *)
Definition image_info : InputInfo.t :=
    InputInfo.mk [3; 224; 224] (Some {[2 := 32]}).

Definition image_dynamic : DynamicAxisInfo := mkDynamicAxisInfo [{[0; 2]}].

Definition image_params : ModelParams :=
    mkModelParams 8 [image_info] (Some image_dynamic).
End Scenario.

(** ** Variations of a backend

    A backend with some of its oracles replaced, to run the strategies
    where a collaborator fails or is missing. *)

Module Variants.
Definition with_check_quantization
    (check : option QuantizationType → option Qcanon.Qc → Result unit)
    (B : Backend) : Backend := {|
    QUANTIZATION_DATA_NUM := QUANTIZATION_DATA_NUM B;
    TORCH_TENSORRT_PRECISIONS := TORCH_TENSORRT_PRECISIONS B;
    check_quantization := check;
    torch_jit_script := torch_jit_script B;
    torch_jit_trace := torch_jit_trace B;
    torch_tensorrt_compile := torch_tensorrt_compile B;
    onnxsim_importable := onnxsim_importable B;
    subprocess_run := subprocess_run B;
    has_set_memory_pool_limit := has_set_memory_pool_limit B;
    quantize_tensorrt := quantize_tensorrt B;
    parse_from_file := parse_from_file B;
    get_input_names := get_input_names B;
    np_random_choice := np_random_choice B;
    build_serialized_network := build_serialized_network B
  |}.

  (** A check that wants a threshold with every quantization type, and a
      quantization type with every threshold. *)
Definition strict_check (q : option QuantizationType)
    (ths : option Qcanon.Qc) : Result unit :=
    match q, ths with
    | Some _, None =>
        Raise (ValueError "metric_drop_ths is required with a quantization type")
    | None, Some _ =>
        Raise (ValueError "a quantization type is required with metric_drop_ths")
    | _, _ => Ok tt
    end.

Definition with_jit
    (script : gmap nat ModuleState → ModelObj → Result unit)
    (trace : gmap nat ModuleState → ModelObj → list Tensor → Result unit)
    (B : Backend) : Backend := {|
    QUANTIZATION_DATA_NUM := QUANTIZATION_DATA_NUM B;
    TORCH_TENSORRT_PRECISIONS := TORCH_TENSORRT_PRECISIONS B;
    check_quantization := check_quantization B;
    torch_jit_script := script;
    torch_jit_trace := trace;
    torch_tensorrt_compile := torch_tensorrt_compile B;
    onnxsim_importable := onnxsim_importable B;
    subprocess_run := subprocess_run B;
    has_set_memory_pool_limit := has_set_memory_pool_limit B;
    quantize_tensorrt := quantize_tensorrt B;
    parse_from_file := parse_from_file B;
    get_input_names := get_input_names B;
    np_random_choice := np_random_choice B;
    build_serialized_network := build_serialized_network B
  |}.



Definition with_parser
    (parse : string → gset string → bool * list string)
    (names : string → list string)
    (B : Backend) : Backend := {|
    QUANTIZATION_DATA_NUM := QUANTIZATION_DATA_NUM B;
    TORCH_TENSORRT_PRECISIONS := TORCH_TENSORRT_PRECISIONS B;
    check_quantization := check_quantization B;
    torch_jit_script := torch_jit_script B;
    torch_jit_trace := torch_jit_trace B;
    torch_tensorrt_compile := torch_tensorrt_compile B;
    onnxsim_importable := onnxsim_importable B;
    subprocess_run := subprocess_run B;
    has_set_memory_pool_limit := has_set_memory_pool_limit B;
    quantize_tensorrt := quantize_tensorrt B;
    parse_from_file := parse;
    get_input_names := names;
    np_random_choice := np_random_choice B;
    build_serialized_network := build_serialized_network B
  |}.

  (** A parser that rejects every file and reports no diagnostic. *)
Definition silent_parser (path : string) (files : gset string)
    : bool * list string := (false, []).

  (** A model that declares two inputs and dynamic axes for the first
      only, for a graph with two inputs. *)
Definition two_input_params : ModelParams :=
    mkModelParams 8 [Scenario.image_info; Scenario.image_info]
      (Some (mkDynamicAxisInfo [{[0; 2]}])).

Definition two_input_names (path : string) : list string :=
    ["input_ids"; "pixel_values"].



  (** A data source with other samples than [Scenario.data]. *)
Definition other_samples : DataManager :=
    mkDataManager [[Scenario.pixels]] (λ _, [[Scenario.pixels]]) 4.
End Variants.

(** ** What a call produced *)

(** The outcome the artifact invariant describes: a call that returns made
    exactly one assignment to [self.compiled_model], the backend's artifact
    when the gate let the pair through and [None] otherwise; a call that
    raises made none and left the attribute as it was. *)
Definition one_result_or_none (device : DeviceType)
    (q : option QuantizationType) (w : World)
    (r : Result unit) (w' : World) (evs : list Event) : Prop :=
  match r with
  | Ok _ =>
      (count is_artifact evs + count is_absent evs = 1)%nat
      ∧ if decide (in_support_table device q)
        then count is_artifact evs = 1%nat
             ∧ ∃ a, compiled_model w' = Some a
                    ∧ SetCompiledModel (Some a) ∈ evs
        else count is_absent evs = 1%nat ∧ compiled_model w' = None
  | Raise _ =>
      count is_artifact evs = 0%nat ∧ count is_absent evs = 0%nat
      ∧ compiled_model w' = compiled_model w
  end.

(** What the compilation step of a call received, given the first sample
    of the data source. *)
Definition presented_as (sample : Sample) (tensors : list Tensor)
    (specs : list InputSpec) : Prop :=
  Forall2 (λ t t',
      t_shape t' = t_shape t ∧ t_cuda t' = true
      ∧ t_dtype t'
        = if decide (t_dtype t = torch_int64) then torch_int32
          else t_dtype t)
    sample tensors
  ∧ Forall2 (λ t sp,
      in_shape sp = t_shape t
      ∧ (t_dtype t = torch_int64 → in_dtype sp = torch_int32))
    sample specs.

(** * Properties *)

(** ** Rules of the postcondition calculus *)

Section WpRules.
Context {A B : Type}.
Implicit Types (w : World) (Q : Result A → World → list Event → Prop).

Lemma wp_ret (a : A) w Q : Q (Ok a) w [] → wp (mret a) w Q.
  Proof. done. Qed.

Lemma wp_raise e w Q : Q (Raise e) w [] → wp (raise e) w Q.
  Proof. done. Qed.

Lemma wp_lift (r : Result A) w Q : Q r w [] → wp (lift r) w Q.
  Proof. done. Qed.

Lemma wp_bind (m : M B) (f : B → M A) w Q :
    wp m w (λ r w1 ev1,
      match r with
      | Ok b => wp (f b) w1 (λ r2 w2 ev2, Q r2 w2 (ev1 ++ ev2))
      | Raise e => Q (Raise e) w1 ev1
      end) →
    wp (m ≫= f) w Q.
  Proof.
    unfold wp, mbind, M_bind. destruct (m w) as [[b|e] w1 ev1]; simpl; [|done].
    by destruct (f b w1).
  Qed.

Lemma wp_try (catches : Exception → bool) (m h : M A) w Q :
    wp m w (λ r w1 ev1,
      match r with
      | Ok a => Q (Ok a) w1 ev1
      | Raise e =>
          if catches e then wp h w1 (λ r2 w2 ev2, Q r2 w2 (ev1 ++ ev2))
          else Q (Raise e) w1 ev1
      end) →
    wp (try_except catches m h) w Q.
  Proof.
    unfold wp, try_except. destruct (m w) as [[a|e] w1 ev1]; simpl; [done|].
    destruct (catches e); [|done]. by destruct (h w1).
  Qed.

Lemma wp_mono (m : M A) w Q Q' :
    wp m w Q → (∀ r w' evs, Q r w' evs → Q' r w' evs) → wp m w Q'.
  Proof. unfold wp. auto. Qed.
End WpRules.

Lemma wp_emit ev w (Q : Result unit → World → list Event → Prop) :
  Q (Ok tt) w [ev] → wp (emit ev) w Q.
Proof. done. Qed.

Lemma wp_modify f w (Q : Result unit → World → list Event → Prop) :
  Q (Ok tt) (f w) [] → wp (modify f) w Q.
Proof. done. Qed.

Lemma wp_get_world w (Q : Result World → World → list Event → Prop) :
  Q (Ok w) w [] → wp get_world w Q.
Proof. done. Qed.

Lemma supported_run device q w :
  supported device q w
  = mkOutcome
      (Ok (bool_decide (q ∈ default [] (supported_ops !! device_value device))))
      w [].
Proof. unfold supported. destruct device; reflexivity. Qed.

Lemma wp_supported device q w (Q : Result bool → World → list Event → Prop) :
  Q (Ok (bool_decide (q ∈ default [] (supported_ops !! device_value device))))
    w [] →
  wp (supported device q) w Q.
Proof. unfold wp. by rewrite supported_run. Qed.

Lemma wp_compile_call B model specs precisions cal w
    (Q : Result Artifact → World → list Event → Prop) :
  (∀ r files,
     torch_tensorrt_compile B (heap w) model specs precisions cal (fs w)
     = (r, files) →
     Q r (set_fs files w) [TrtCompile model specs precisions cal]) →
  wp (PyTorchTensorRTCompiler.compile_call B model specs precisions cal) w Q.
Proof.
  intros H. unfold wp, PyTorchTensorRTCompiler.compile_call. simpl.
  apply H. by destruct torch_tensorrt_compile.
Qed.

Lemma wp_run B cmd w (Q : Result Z → World → list Event → Prop) :
  (∀ r files,
     subprocess_run B cmd (fs w) = (r, files) →
     Q r (set_fs files w) [SubprocessRun cmd]) →
  wp (ONNXTensorRTCompiler.run B cmd) w Q.
Proof.
  intros H. unfold wp, ONNXTensorRTCompiler.run. simpl.
  apply H. by destruct subprocess_run.
Qed.

Lemma log_errors_run errors w :
  ONNXTensorRTCompiler.log_errors errors w
  = mkOutcome (Ok tt) w (LogDebug <$> errors).
Proof.
  induction errors as [|e rest IH]; [done|]. simpl.
  unfold mbind, M_bind, emit. by rewrite IH.
Qed.

Lemma wp_log_errors errors w
    (Q : Result unit → World → list Event → Prop) :
  Q (Ok tt) w (LogDebug <$> errors) →
  wp (ONNXTensorRTCompiler.log_errors errors) w Q.
Proof. unfold wp. by rewrite log_errors_run. Qed.

Lemma set_shapes_run triples w :
  ONNXTensorRTCompiler.set_shapes triples w
  = mkOutcome (Ok tt) w (SetShape <$> triples).
Proof.
  induction triples as [|t rest IH]; [done|]. simpl.
  unfold mbind, M_bind, emit. by rewrite IH.
Qed.

Lemma wp_set_shapes triples w
    (Q : Result unit → World → list Event → Prop) :
  Q (Ok tt) w (SetShape <$> triples) →
  wp (ONNXTensorRTCompiler.set_shapes triples) w Q.
Proof. unfold wp. by rewrite set_shapes_run. Qed.

Lemma wp_supported_true device q w
    (Q : Result bool → World → list Event → Prop) :
  in_support_table device q → Q (Ok true) w [] → wp (supported device q) w Q.
Proof.
  intros H HQ. apply wp_supported.
  by rewrite (bool_decide_eq_true_2 _ H).
Qed.

Lemma wp_supported_false device q w
    (Q : Result bool → World → list Event → Prop) :
  ¬ in_support_table device q → Q (Ok false) w [] →
  wp (supported device q) w Q.
Proof.
  intros H HQ. apply wp_supported.
  by rewrite (bool_decide_eq_false_2 _ H).
Qed.

(** The fixed-size sample of one element: the first sample, or the error
    of the draw from an empty collection. *)
Lemma wp_first_sample B samples w
    (Q : Result (list Sample) → World → list Event → Prop) :
  (samples = [] →
   Q (Raise (ValueError
               "a must be greater than 0 unless no samples are taken"))
     w []) →
  (∀ s rest, samples = s :: rest → Q (Ok [s]) w []) →
  wp (fixed_size_sample B samples 1) w Q.
Proof.
  intros Hnone Hsome. unfold wp, fixed_size_sample.
  destruct samples as [|s rest].
  - rewrite bool_decide_eq_true_2 by (simpl; lia). by apply Hnone.
  - rewrite bool_decide_eq_false_2 by (simpl; lia). by apply (Hsome s rest).
Qed.

(** The fixed-size sample of any size, its elements left aside. *)
Lemma wp_fixed_size_sample B samples n w
    (Q : Result (list Sample) → World → list Event → Prop) :
  (samples = [] →
   Q (Raise (ValueError
               "a must be greater than 0 unless no samples are taken"))
     w []) →
  (∀ l, samples ≠ [] ∨ n = 0%nat → Q (Ok l) w []) →
  wp (fixed_size_sample B samples n) w Q.
Proof.
  intros Hnone Hsome. unfold wp, fixed_size_sample.
  destruct (bool_decide (length samples < n)%nat) eqn:Hlt;
    destruct samples as [|s rest]; simpl.
  - by apply Hnone.
  - apply Hsome. by left.
  - apply Hsome. right. apply bool_decide_eq_false_1 in Hlt. simpl in Hlt. lia.
  - apply Hsome. by left.
Qed.

(** The sample has the size asked for, and begins with the samples of the
    collection in their order. *)
Lemma fixed_size_sample_exact B samples n w l w' evs :
  fixed_size_sample B samples n w = mkOutcome (Ok l) w' evs →
  length l = n ∧ take (length samples) l = take n samples.
Proof.
  unfold fixed_size_sample.
  destruct (bool_decide (length samples < n)%nat) eqn:Hlt.
  - apply bool_decide_eq_true_1 in Hlt.
    destruct samples as [|s rest]; [done|]. intros Hrun.
    assert (∃ pad, l = (s :: rest) ++ pad
                   ∧ length pad = (n - length (s :: rest))%nat)
      as (pad & -> & Hpad).
    { injection Hrun as <- _ _. eexists. split; [reflexivity|].
      by rewrite length_fmap, length_seq. }
    split.
    + rewrite length_app, Hpad. lia.
    + rewrite take_app_length. by rewrite take_ge by lia.
  - apply bool_decide_eq_false_1 in Hlt. intros [= <- _ _]. split.
    + rewrite length_take. lia.
    + rewrite take_take. f_equal. lia.
Qed.

(** Two runs of [m ≫= f] agree when the runs of [m] end in the same world
    with the same log and the continuations agree on what they are given. *)
Lemma bind_cong {A B} (m m' : M A) (f f' : A → M B) w a a' w1 ev :
  m w = mkOutcome (Ok a) w1 ev →
  m' w = mkOutcome (Ok a') w1 ev →
  f a w1 = f' a' w1 →
  (m ≫= f) w = (m' ≫= f') w.
Proof. intros Hm Hm' Hf. unfold mbind, M_bind. by rewrite Hm, Hm', Hf. Qed.

Lemma bind_cong_same {A B} (m : M A) (f f' : A → M B) w :
  (∀ a w1, f a w1 = f' a w1) → (m ≫= f) w = (m ≫= f') w.
Proof.
  intros Hf. unfold mbind, M_bind. destruct (m w) as [[a|e] w1 ev]; [|done].
  by rewrite Hf.
Qed.

Lemma bind_cong_run {A B} (m m' : M A) (f : A → M B) w :
  m w = m' w → (m ≫= f) w = (m' ≫= f) w.
Proof. intros Hm. unfold mbind, M_bind. by rewrite Hm. Qed.

Lemma get_split_run d name w :
  get_split (Some d) name w
  = mkOutcome
      (Ok (mkDataManager (dm_split d name) (dm_split d) (dm_batch_size d)))
      w [DataGetSplit name].
Proof. reflexivity. Qed.

Lemma get_list_run B d n w :
  get_list B (Some d) n w
  = let o := fixed_size_sample B (dm_samples d) n w in
    mkOutcome (result o) (final o) (DataGetList n :: events o).
Proof.
  cbv beta iota zeta delta [get_list attr mbind M_bind mret M_ret emit app].
  by destruct (fixed_size_sample B (dm_samples d) n w) as [[a|e] w1 ev1].
Qed.

(** [get_list(1)] depends on the first sample only. *)
Lemma get_list_1_head B d1 d2 w :
  head (dm_samples d1) = head (dm_samples d2) →
  get_list B (Some d1) 1 w = get_list B (Some d2) 1 w.
Proof.
  intros Hh. rewrite !get_list_run. unfold fixed_size_sample.
  destruct (dm_samples d1) as [|s1 l1], (dm_samples d2) as [|s2 l2];
    simpl in Hh; try discriminate Hh.
  - reflexivity.
  - injection Hh as ->.
    rewrite !bool_decide_eq_false_2 by (simpl; lia). reflexivity.
Qed.

(** [get_numpy_list] of a collection that is not empty returns. *)
Lemma get_numpy_list_returns B d n w :
  dm_samples d ≠ [] →
  ∃ l, get_numpy_list B d n w = mkOutcome (Ok l) w [DataGetNumpyList n].
Proof.
  intros Hd. unfold get_numpy_list, fixed_size_sample.
  destruct (dm_samples d) as [|s rest]; [done|].
  destruct (bool_decide _); by eexists.
Qed.

(** With a quantization type other than static, a call of the
    interchange-format strategy makes nothing of the samples it is given:
    two data sources give the same outcome as soon as their "train" splits
    are both empty or both not. *)
Lemma interchange_run_ignores_samples B device model mp tfms ths q d1 d2 w :
  q ≠ Some STATIC →
  (dm_split d1 "train" = [] ↔ dm_split d2 "train" = []) →
  ONNXTensorRTCompiler.execute B device model mp tfms ths q (Some d1) w
  = ONNXTensorRTCompiler.execute B device model mp tfms ths q (Some d2) w.
Proof.
  intros Hq Hs. unfold ONNXTensorRTCompiler.execute.
  apply bind_cong_same. intros ok w1. destruct ok; [|reflexivity].
  cbn [negb is_None]. rewrite !andb_false_r.
  apply bind_cong_same. intros _ w2. apply bind_cong_same. intros _ w3.
  eapply bind_cong; [apply get_split_run|apply get_split_run|].
  destruct (dm_split d1 "train") as [|s1 l1] eqn:H1.
  - assert (dm_split d2 "train" = []) as H2 by by apply Hs.
    apply bind_cong_run. unfold get_numpy_list. cbn [dm_samples].
    by rewrite H2.
  - assert (dm_split d2 "train" ≠ []) as H2.
    { intros H2. by apply Hs in H2. }
    destruct (get_numpy_list_returns B
                (mkDataManager (dm_split d1 "train") (dm_split d1)
                   (dm_batch_size d1))
                (QUANTIZATION_DATA_NUM B) w3) as [k1 Hk1].
    { cbn [dm_samples]. by rewrite H1. }
    destruct (get_numpy_list_returns B
                (mkDataManager (dm_split d2 "train") (dm_split d2)
                   (dm_batch_size d2))
                (QUANTIZATION_DATA_NUM B) w3) as [k2 Hk2]; [done|].
    rewrite H1 in Hk1.
    eapply bind_cong; [exact Hk1|exact Hk2|].
    destruct q as [[]|]; done.
Qed.

(** A condition without free variables is evaluated. *)
Ltac eval_cond b :=
  lazymatch b with
  | context [fs _] => fail
  | context [supported_ops] => fail
  | _ =>
      let v := eval vm_compute in b in
      lazymatch v with
      | true => change b with true
      | false => change b with false
      end
  end.

(** One step of symbolic execution: the program at the head of the goal is
    decomposed by the rule of its outermost construct; a procedure of the
    source is unfolded; an oracle's answer is split into its cases. *)
Ltac wp_step_core :=
  lazymatch goal with
  | |- wp (mbind _ _) _ _ => apply wp_bind
  | |- wp (mret _) _ _ => apply wp_ret
  | |- wp (raise _) _ _ => apply wp_raise
  | |- wp (emit _) _ _ => apply wp_emit
  | |- wp (modify _) _ _ => apply wp_modify
  | |- wp get_world _ _ => apply wp_get_world
  | |- wp (supported _ _) _ _ =>
      first [ apply wp_supported_true; [assumption|]
            | apply wp_supported_false; [assumption|]
            | apply wp_supported ]
  | |- if ?b then _ else _ => first [eval_cond b | destruct b eqn:?]
  | |- wp (lift ?r) _ _ =>
      apply wp_lift;
      first [ match goal with H : r = _ |- _ => rewrite H end
            | destruct r eqn:? ]
  | |- wp (try_except _ _ _) _ _ => apply wp_try
  | |- wp (PyTorchTensorRTCompiler.compile_call _ _ _ _ _) _ _ =>
      apply wp_compile_call; intros [?|?] ? ?
  | |- wp (ONNXTensorRTCompiler.run _ _) _ _ =>
      apply wp_run; intros [?|?] ? ?
  | |- wp (ONNXTensorRTCompiler.log_errors _) _ _ => apply wp_log_errors
  | |- wp (ONNXTensorRTCompiler.set_shapes _) _ _ => apply wp_set_shapes
  | |- wp (if ?b then _ else _) _ _ => first [eval_cond b | destruct b eqn:?]
  | |- wp (match ?x with _ => _ end) _ _ => destruct x eqn:?
  | |- wp (let '(_, _) := ?x in _) _ _ => destruct x eqn:?
  | |- wp (self_set_compiled_model _) _ _ => unfold self_set_compiled_model
  | |- wp (self_set_model_orig _) _ _ => unfold self_set_model_orig
  | |- wp (logger_info _ _) _ _ => unfold logger_info
  | |- wp (attr _ _) _ _ => unfold attr
  | |- wp (get_split _ _) _ _ => unfold get_split
  | |- wp (get_list _ _ _) _ _ => unfold get_list
  | |- wp (get_numpy_list _ _ _) _ _ => unfold get_numpy_list
  | |- wp (fixed_size_sample _ _ 1%nat) _ _ =>
      apply wp_first_sample; [intros ?|intros ? ? ?]
  | |- wp (fixed_size_sample _ _ _) _ _ =>
      apply wp_fixed_size_sample; [intros ?|intros ? ?]
  | |- wp (item0 _) _ _ => unfold item0
  | |- wp (tfms_append _ _) _ _ => unfold tfms_append
  | |- wp (PyTorchTensorRTCompiler.execute _ _ _ _ _ _ _ _) _ _ =>
      unfold PyTorchTensorRTCompiler.execute
  | |- wp (PyTorchTensorRTCompiler._compile_model _ _ _ _ _ _) _ _ =>
      unfold PyTorchTensorRTCompiler._compile_model
  | |- wp (PyTorchTensorRTCompiler.make_calibrator _) _ _ =>
      unfold PyTorchTensorRTCompiler.make_calibrator
  | |- wp (PyTorchTensorRTCompiler.jit_script _ _) _ _ =>
      unfold PyTorchTensorRTCompiler.jit_script
  | |- wp (PyTorchTensorRTCompiler.jit_trace _ _ _) _ _ =>
      unfold PyTorchTensorRTCompiler.jit_trace
  | |- wp (PyTorchTensorRTCompiler.deepcopy _) _ _ =>
      unfold PyTorchTensorRTCompiler.deepcopy
  | |- wp (PyTorchTensorRTCompiler.module_half _) _ _ =>
      unfold PyTorchTensorRTCompiler.module_half
  | |- wp (PyTorchTensorRTCompiler.os_remove _) _ _ =>
      unfold PyTorchTensorRTCompiler.os_remove
  | |- wp (ONNXTensorRTCompiler.execute _ _ _ _ _ _ _ _) _ _ =>
      unfold ONNXTensorRTCompiler.execute
  | |- wp (ONNXTensorRTCompiler.simplify _ _) _ _ =>
      unfold ONNXTensorRTCompiler.simplify
  | |- wp (ONNXTensorRTCompiler.is_file _) _ _ =>
      unfold ONNXTensorRTCompiler.is_file
  | |- wp (ONNXTensorRTCompiler.import_onnxsim _) _ _ =>
      unfold ONNXTensorRTCompiler.import_onnxsim
  | |- wp (ONNXTensorRTCompiler.set_memory_pool_limit _ _ _) _ _ =>
      unfold ONNXTensorRTCompiler.set_memory_pool_limit
  | |- wp (ONNXTensorRTCompiler._quantize_model _ _ _ _ _ _) _ _ =>
      unfold ONNXTensorRTCompiler._quantize_model
  | |- wp (ONNXTensorRTCompiler.parse _ _ _) _ _ =>
      unfold ONNXTensorRTCompiler.parse
  | |- wp (ONNXTensorRTCompiler._compile_model _ _ _ _ _) _ _ =>
      unfold ONNXTensorRTCompiler._compile_model
  end; cbv beta iota zeta.

Ltac wp_exec_core := repeat wp_step_core.

(** *** Summaries of the two best-effort steps

    Neither step can make the call fail, and all that later steps see of
    them is the path chosen, the files on disk and the configuration. *)

Lemma set_fs_same w : set_fs (fs w) w = w.
Proof. by destruct w. Qed.

Lemma wp_simplify B model w
    (Q : Result string → World → list Event → Prop) :
  (∀ path files evs,
     path = model ∨ path = model +:+ "_simplified" →
     Forall (λ e, is_preparation e = true) evs →
     Q (Ok path) (set_fs files w) evs) →
  wp (ONNXTensorRTCompiler.simplify B model) w Q.
Proof.
  intros H. unfold ONNXTensorRTCompiler.simplify. wp_exec_core.
  all: cbn [set_fs fs heap pipelines compiled_model model_orig].
  all: try rewrite <- (set_fs_same w) at 1.
  all: apply H; [by auto|cbn [app]; by repeat constructor].
Qed.

Lemma wp_memory_pool B config limit msg w
    (Q : Result BuilderConfig → World → list Event → Prop) :
  (∀ config' evs,
     Forall (λ e, is_preparation e = true) evs → Q (Ok config') w evs) →
  wp (try_except is_AttributeError
        (ONNXTensorRTCompiler.set_memory_pool_limit B config limit)
        (emit (LogWarning msg);; mret config)) w Q.
Proof.
  intros H. wp_exec_core.
  all: apply H; cbn [app]; by repeat constructor.
Qed.

Lemma preparation_elem evs e :
  Forall (λ e, is_preparation e = true) evs → e ∈ evs →
  is_preparation e = true.
Proof. intros HF Hin. by apply (proj1 (Forall_forall _ _) HF). Qed.

Ltac wp_step :=
  lazymatch goal with
  | |- wp (ONNXTensorRTCompiler.simplify _ _) _ _ =>
      apply wp_simplify; intros ? ? ? ? ?
  | |- wp (try_except is_AttributeError
             (ONNXTensorRTCompiler.set_memory_pool_limit _ _ _) _) _ _ =>
      apply wp_memory_pool; intros ? ? ?
  | |- _ => wp_step_core
  end; cbv beta iota zeta.

Ltac wp_exec := repeat wp_step.

(** A statement about the outcome of a call, put in the form of the
    calculus. *)
Ltac by_wp :=
  lazymatch goal with
  | |- context [events (?m ?w)] =>
      pattern (result (m w)), (final (m w)), (events (m w));
      lazymatch goal with |- ?Q _ _ _ => change (wp m w Q) end
  end; cbv beta.

(** ** Counting events *)

Lemma count_app p evs1 evs2 :
  count p (evs1 ++ evs2) = (count p evs1 + count p evs2)%nat.
Proof. induction evs1 as [|e evs1 IH]; simpl; [done|]. rewrite IH. lia. Qed.

Lemma count_fmap_false {X} p (f : X → Event) (l : list X) :
  (∀ x, p (f x) = false) → count p (f <$> l) = 0%nat.
Proof.
  intros H. induction l as [|x l IH]; simpl; [done|]. rewrite H. exact IH.
Qed.

Lemma count_zero_not_elem p evs e :
  count p evs = 0%nat → p e = true → e ∉ evs.
Proof.
  induction evs as [|e' evs IH]; simpl; intros Hc He Hin.
  - by apply elem_of_nil in Hin.
  - apply elem_of_cons in Hin as [->|Hin].
    + rewrite He in Hc. lia.
    + apply IH; [lia|done|done].
Qed.

Lemma count_preparation p evs :
  (∀ e, is_preparation e = true → p e = false) →
  Forall (λ e, is_preparation e = true) evs →
  count p evs = 0%nat.
Proof.
  intros Hp. induction 1 as [|e evs He _ IH]; simpl; [done|].
  by rewrite (Hp e He), IH.
Qed.

Lemma count_artifact_preparation evs :
  Forall (λ e, is_preparation e = true) evs → count is_artifact evs = 0%nat.
Proof. apply count_preparation. by intros []. Qed.

Lemma count_absent_preparation evs :
  Forall (λ e, is_preparation e = true) evs → count is_absent evs = 0%nat.
Proof. apply count_preparation. by intros []. Qed.

(** Counts over the log of a finished symbolic run. *)
Ltac count_events :=
  repeat rewrite count_app;
  repeat (rewrite (count_fmap_false _ LogDebug) by done);
  repeat (rewrite (count_fmap_false _ SetShape) by done);
  repeat match goal with
    | HF : Forall _ ?evs |- context [count is_artifact ?evs] =>
        rewrite (count_artifact_preparation evs HF)
    | HF : Forall _ ?evs |- context [count is_absent ?evs] =>
        rewrite (count_absent_preparation evs HF)
    end;
  simpl.

(** ** The dynamic-shape profile *)

Lemma profile_min_batch bs dyn info :
  profile_min bs dyn info !! 0%nat
  = Some (if decide (0 ∈ dyn) then Z.min bs 1 else bs).
Proof.
  unfold profile_min. simpl. f_equal.
  destruct (decide (0 ∈ dyn)) as [H|H].
  - by rewrite bool_decide_eq_true_2.
  - by rewrite bool_decide_eq_false_2.
Qed.

Lemma profile_min_dim bs dyn info j sz :
  InputInfo.size info !! j = Some sz →
  profile_min bs dyn info !! S j
  = Some (if decide (Z.of_nat (S j) ∈ dyn)
          then default 1 (default ∅ (InputInfo.min_sizes info)
                            !! Z.of_nat (S j))
          else sz).
Proof.
  intros Hj. unfold profile_min. simpl. rewrite list_lookup_imap, Hj. simpl.
  replace (Z.of_nat j + 1) with (Z.of_nat (S j)) by lia.
  destruct (decide (Z.of_nat (S j) ∈ dyn)) as [Hin|Hin].
  - by rewrite bool_decide_eq_false_2 by (intros Hn; by apply Hn).
  - by rewrite bool_decide_eq_true_2.
Qed.

Lemma profile_min_length bs dyn info :
  length (profile_min bs dyn info) = S (length (InputInfo.size info)).
Proof. unfold profile_min. simpl. by rewrite length_imap. Qed.

(** The triple of the profile at a position that the names, the
    dynamic-axis sets and the input descriptions all reach. *)
Lemma build_profile_entry names mp di k name dyn info :
  names !! k = Some name →
  inputs di !! k = Some dyn →
  input_infos mp !! k = Some info →
  ∃ t, build_profile names mp di !! k = Some t
    ∧ st_name t = name
    ∧ length (st_min t) = S (length (InputInfo.size info))
    ∧ st_min t !! 0%nat
      = Some (if decide (0 ∈ dyn) then Z.min (batch_size mp) 1
              else batch_size mp)
    ∧ (∀ j sz,
         InputInfo.size info !! j = Some sz →
         st_min t !! S j
         = Some (if decide (Z.of_nat (S j) ∈ dyn)
                 then default 1 (default ∅ (InputInfo.min_sizes info)
                                   !! Z.of_nat (S j))
                 else sz))
    ∧ st_opt t = batch_size mp :: InputInfo.size info
    ∧ st_max t = batch_size mp :: InputInfo.size info.
Proof.
  intros Hn Hd Hi.
  exists (set_shape_args (batch_size mp) (name, (dyn, info))).
  split.
  - unfold build_profile. rewrite list_lookup_fmap.
    assert (zip names (zip (inputs di) (input_infos mp)) !! k
            = Some (name, (dyn, info))) as ->; [|done].
    unfold zip. apply lookup_zip_with_Some. exists name, (dyn, info).
    split; [done|]. split; [done|].
    apply lookup_zip_with_Some. by exists dyn, info.
  - unfold set_shape_args. cbn [st_name st_min st_opt st_max].
    split; [done|]. split; [apply profile_min_length|].
    split; [apply profile_min_batch|].
    split; [intros j sz Hj; by apply profile_min_dim|done].
Qed.

(** ** The capability gate *)

Lemma cpu_supports_nothing q : ¬ in_support_table CPU q.
Proof. unfold in_support_table. vm_compute. inversion 1. Qed.

Lemma gpu_supports q : in_support_table GPU q ↔ q ≠ Some DYNAMIC.
Proof.
  unfold in_support_table. destruct q as [[]|]; split.
  - intros H. exfalso. revert H. apply (bool_decide_eq_false_1 _).
    by vm_compute.
  - intros H. by destruct H.
  - by intros _ ?.
  - intros _. apply (bool_decide_unpack _). by vm_compute.
  - by intros _ ?.
  - intros _. apply (bool_decide_unpack _). by vm_compute.
  - by intros _ ?.
  - intros _. apply (bool_decide_unpack _). by vm_compute.
Qed.

(** C1: when the pair (device, quantization type) is not in the support
    table, [execute] of either strategy assigns [None] to the compiled
    artifact, does nothing else and returns without raising; the table of
    the cpu is empty, so this is the outcome of every call on a cpu. *)
Theorem unsupported_pair_returns_absent B device q :
  ¬ in_support_table device q →
  (∀ model mp tfms ths data w,
     PyTorchTensorRTCompiler.execute B device model mp tfms ths q data w
     = mkOutcome (Ok tt) (set_compiled_model None w) [SetCompiledModel None])
  ∧ (∀ model mp tfms ths data w,
     ONNXTensorRTCompiler.execute B device model mp tfms ths q data w
     = mkOutcome (Ok tt) (set_compiled_model None w) [SetCompiledModel None])
  ∧ supported_ops !! device_value CPU = Some []
  ∧ ∀ q', ¬ in_support_table CPU q'.
Proof.
  intros Hq. split; [|split; [|split]];
    [| |done|apply cpu_supports_nothing]; intros;
    unfold PyTorchTensorRTCompiler.execute, ONNXTensorRTCompiler.execute;
    unfold mbind at 1, M_bind at 1; rewrite supported_run;
    rewrite (bool_decide_eq_false_2 _ Hq); reflexivity.
Qed.

Lemma unsupported_pair_returns_absent_witness :
  ¬ in_support_table GPU (Some DYNAMIC)
  ∧ PyTorchTensorRTCompiler.execute Scenario.backend GPU 0 Scenario.params
      (Some 0%nat) None (Some DYNAMIC) (Some Scenario.data) Scenario.world
    = mkOutcome (Ok tt) (set_compiled_model None Scenario.world)
        [SetCompiledModel None].
Proof.
  assert (¬ in_support_table GPU (Some DYNAMIC)) as H.
  { rewrite gpu_supports. by intros Hn. }
  split; [exact H|].
  apply (unsupported_pair_returns_absent Scenario.backend GPU
           (Some DYNAMIC) H).
Defined.

(** Membership of an event in the log of a finished symbolic run. *)
Ltac find_event_in :=
  first
    [ apply list_elem_of_here
    | apply list_elem_of_further; find_event_in
    | apply elem_of_app; first [right; find_event_in | left; find_event_in] ].

Ltac find_event := solve [cbn [app]; find_event_in].

(** ** Raising before any backend work *)

(** C4, as amended: on a pair the gate lets through, static quantization
    with a null data source makes [execute] of either strategy raise the
    [ValueError] of lines 89 and 235 at once: the world is unchanged and the
    log is empty, so no builder, network or other backend object was made. *)
Theorem static_without_data_raises_first B device :
  in_support_table device (Some STATIC) →
  (∀ model mp tfms ths w,
     PyTorchTensorRTCompiler.execute B device model mp tfms ths
       (Some STATIC) None w
     = mkOutcome
         (Raise (ValueError "Input data is required for static quantization."))
         w [])
  ∧ (∀ model mp tfms ths w,
     ONNXTensorRTCompiler.execute B device model mp tfms ths
       (Some STATIC) None w
     = mkOutcome
         (Raise (ValueError "Input data is required for static quantization."))
         w []).
Proof.
  intros Hq. split; intros;
    unfold PyTorchTensorRTCompiler.execute, ONNXTensorRTCompiler.execute;
    unfold mbind at 1, M_bind at 1; rewrite supported_run;
    rewrite (bool_decide_eq_true_2 _ Hq); reflexivity.
Qed.

Lemma static_without_data_raises_first_witness :
  in_support_table GPU (Some STATIC)
  ∧ ONNXTensorRTCompiler.execute Scenario.backend GPU "model.onnx"
      Scenario.params (Some 0%nat) None (Some STATIC) None Scenario.world
    = mkOutcome
        (Raise (ValueError "Input data is required for static quantization."))
        Scenario.world [].
Proof.
  assert (in_support_table GPU (Some STATIC)) as H.
  { by rewrite gpu_supports. }
  split; [exact H|].
  apply (static_without_data_raises_first Scenario.backend GPU H).
Defined.

(** C4 as stated fails: on a cpu the gate answers first, and a call with
    static quantization and no data returns without raising. *)
Lemma static_without_data_on_cpu_returns :
  result (PyTorchTensorRTCompiler.execute Scenario.backend CPU 0
            Scenario.params (Some 0%nat) None (Some STATIC) None
            Scenario.world) = Ok tt
  ∧ result (ONNXTensorRTCompiler.execute Scenario.backend CPU "model.onnx"
              Scenario.params (Some 0%nat) None (Some STATIC) None
              Scenario.world) = Ok tt.
Proof. split; by vm_compute. Qed.

(** ** One result per returning call *)

(** C2, as amended: a call of [execute], on either strategy, that returns
    produces exactly one of a compiled artifact and the explicit absent
    result, never both and never neither: the artifact when the pair is in
    the support table, the absent result when it is not.  A call that
    raises produces neither and leaves [compiled_model] as it was. *)
Theorem one_result_per_returning_call B device q :
  (∀ model mp tfms ths data w,
     let o := PyTorchTensorRTCompiler.execute B device model mp tfms ths q
                data w in
     one_result_or_none device q w (result o) (final o) (events o))
  ∧ (∀ model mp tfms ths data w,
     let o := ONNXTensorRTCompiler.execute B device model mp tfms ths q
                data w in
     one_result_or_none device q w (result o) (final o) (events o)).
Proof.
  split; intros model mp tfms ths data w o; subst o;
    match goal with
    | |- one_result_or_none _ _ _ (result (?m _)) _ _ =>
        change (wp m w (one_result_or_none device q w))
    end;
    unfold one_result_or_none;
    destruct (decide (in_support_table device q));
    wp_exec; repeat split;
    first [ reflexivity
          | by count_events
          | eexists; split; [reflexivity|find_event] ].
Qed.

(** C2 as stated fails on a call that raises: static quantization without
    data on a gpu produces neither an artifact nor the absent result. *)
Lemma raising_call_produces_neither :
  let o := PyTorchTensorRTCompiler.execute Scenario.backend GPU 0
             Scenario.params (Some 0%nat) None (Some STATIC) None
             Scenario.world in
  result o
  = Raise (ValueError "Input data is required for static quantization.")
  ∧ count is_artifact (events o) = 0%nat
  ∧ count is_absent (events o) = 0%nat
  ∧ compiled_model (final o) = compiled_model Scenario.world.
Proof. by vm_compute. Qed.

(** ** The calibration cache *)

(** C3, as amended: when a static-quantization call of the native-graph
    strategy on a supported pair returns, the file [calibration.cache] does
    not exist afterwards; when the call raises, no file was removed: the
    cleanup of lines 188-189 stands after the backend call and is skipped
    by an exception. *)
Theorem calibration_cache_removed_on_success
    B device model mp tfms ths data w :
  in_support_table device (Some STATIC) →
  let o := PyTorchTensorRTCompiler.execute B device model mp tfms ths
             (Some STATIC) data w in
  match result o with
  | Ok _ => "calibration.cache" ∉ fs (final o)
  | Raise _ => count is_os_remove (events o) = 0%nat
  end.
Proof.
  intros Hq o; subst o. by_wp. wp_exec; try reflexivity; simpl;
    first
      [ apply not_elem_of_difference; right; by apply elem_of_singleton
      | match goal with
        | H : bool_decide _ = false |- _ =>
            exact (bool_decide_eq_false_1 _ H)
        end ].
Qed.

Lemma calibration_cache_removed_on_success_witness :
  in_support_table GPU (Some STATIC)
  ∧ "calibration.cache"
    ∉ fs (final (PyTorchTensorRTCompiler.execute Scenario.backend GPU 0
                   Scenario.params (Some 0%nat) None (Some STATIC)
                   (Some Scenario.data) Scenario.world)).
Proof.
  assert (in_support_table GPU (Some STATIC)) as H.
  { by rewrite gpu_supports. }
  split; [exact H|].
  apply (calibration_cache_removed_on_success Scenario.backend GPU 0
           Scenario.params (Some 0%nat) None (Some Scenario.data)
           Scenario.world H).
Defined.

(** C3 as stated fails on the failure path: the cache is absent before the
    call, the embedded compiler writes it and then raises, and the file
    exists after the call. *)
Lemma calibration_cache_survives_failed_compile :
  let o := PyTorchTensorRTCompiler.execute Scenario.failing_compile_backend
             GPU 0 Scenario.params (Some 0%nat) None (Some STATIC)
             (Some Scenario.data) Scenario.world in
  ("calibration.cache" ∉ fs Scenario.world)
  ∧ result o = Raise (BackendError "unsupported operator")
  ∧ "calibration.cache" ∈ fs (final o).
Proof.
  split; [|split].
  - apply (bool_decide_unpack _). by vm_compute.
  - by vm_compute.
  - apply (bool_decide_unpack _). by vm_compute.
Qed.

(** ** Half precision *)

Lemma fresh_storage_ne (h : gmap nat ModuleState) (l : nat) s f :
  h !! l = Some s → fresh (dom (alter f l h)) ≠ l.
Proof.
  intros Hl Heq. apply (is_fresh (dom (alter f l h))). rewrite Heq.
  apply elem_of_dom. rewrite lookup_alter, decide_True by done.
  rewrite Hl. by eexists.
Qed.

(** Inversion of the membership of an event in a computed log. *)
Ltac invert_event H :=
  cbn [app] in H;
  repeat lazymatch type of H with
    | _ ∈ [] => by apply elem_of_nil in H
    | _ ∈ _ :: _ =>
        apply elem_of_cons in H as [H|H]; [try discriminate H|]
    | _ ∈ _ ++ _ => apply elem_of_app in H as [H|H]
    | _ ∈ _ <$> _ =>
        apply list_elem_of_fmap in H as (?&?&?); discriminate
    | _ ∈ ?evs =>
        lazymatch goal with
        | HF : Forall _ evs |- _ =>
            apply (preparation_elem _ _ HF) in H; discriminate H
        end
    end.

(** Projections of updated worlds. *)
Ltac world_simpl :=
  cbn [heap pipelines fs compiled_model model_orig set_heap set_pipelines
       set_fs set_compiled_model set_model_orig storage_of with_storage] in *.

(** C7, as amended: on a supported pair, when the quantization check
    passes and a pipeline is given, a half-precision call of the
    native-graph strategy appends exactly one half-precision transformation
    at the end of the pipeline (whether or not a later step raises); the
    parameters of the original model are never cast: what the backend
    compiles is a deep copy in other storage, and that copy is the one cast
    to 16-bit floats.  The original is not left untouched: line 148 moves
    it to the accelerator and puts it in evaluation mode in place. *)
Theorem half_cast_on_deep_copy B device model mp p ths data w l s :
  in_support_table device (Some HALF) →
  check_quantization B (Some HALF) ths = Ok tt →
  pipelines w !! p = Some l →
  heap w !! model = Some s →
  let o := PyTorchTensorRTCompiler.execute B device model mp (Some p) ths
             (Some HALF) data w in
  pipelines (final o) !! p = Some (l ++ [HalfPrecisionTransformation])
  ∧ (heap (final o) !! model = Some s
     ∨ heap (final o) !! model = Some (cuda_eval s))
  ∧ ∀ obj specs prec cal,
      TrtCompile obj specs prec cal ∈ events o →
      storage_of obj ≠ model
      ∧ m_dtype <$> heap (final o) !! storage_of obj = Some torch_half.
Proof.
  intros Hq Hc Hp Hm o; subst o.
  pose proof (fresh_storage_ne (heap w) model s cuda_eval Hm) as Hfresh.
  by_wp. wp_exec.
  all: world_simpl.
  all: split; [by rewrite lookup_alter_eq, Hp|].
  all: split;
    [ first [ by left
            | right; by rewrite ?lookup_alter_ne, ?lookup_insert_ne,
                lookup_alter_eq, Hm by done ]
    | ].
  all: intros obj specs prec cal Hin; invert_event Hin.
  all: inversion Hin; subst; clear Hin; cbn [storage_of].
  all: split; [exact Hfresh|by rewrite lookup_alter_eq, lookup_insert_eq].
Qed.

Lemma half_cast_on_deep_copy_witness :
  pipelines
    (final (PyTorchTensorRTCompiler.execute Scenario.backend GPU 0
              Scenario.params (Some 0%nat) None (Some HALF)
              (Some Scenario.data) Scenario.world)) !! 0%nat
  = Some ([OtherTransformation 7] ++ [HalfPrecisionTransformation]).
Proof.
  refine (proj1 (half_cast_on_deep_copy Scenario.backend GPU 0
            Scenario.params 0 None (Some Scenario.data) Scenario.world
            [OtherTransformation 7] Scenario.original_model _ _ _ _)).
  - by rewrite gpu_supports.
  - reflexivity.
  - by vm_compute.
  - by vm_compute.
Defined.

(** C7 as stated fails twice: on a cpu the gate rejects the half-precision
    call and nothing is appended to the pipeline; and on a gpu the call
    that succeeds has modified the original model, which is now on the
    accelerator and in evaluation mode. *)
Lemma half_request_counterexample :
  pipelines
    (final (PyTorchTensorRTCompiler.execute Scenario.backend CPU 0
              Scenario.params (Some 0%nat) None (Some HALF)
              (Some Scenario.data) Scenario.world)) !! 0%nat
  = Some [OtherTransformation 7]
  ∧ heap Scenario.world !! 0%nat = Some (mkModule torch_float32 false true)
  ∧ result (PyTorchTensorRTCompiler.execute Scenario.backend GPU 0
              Scenario.params (Some 0%nat) None (Some HALF)
              (Some Scenario.data) Scenario.world) = Ok tt
  ∧ heap
      (final (PyTorchTensorRTCompiler.execute Scenario.backend GPU 0
                Scenario.params (Some 0%nat) None (Some HALF)
                (Some Scenario.data) Scenario.world)) !! 0%nat
    = Some (mkModule torch_float32 true false).
Proof. repeat split; by vm_compute. Qed.

(** ** Input tensors *)

Lemma to_backend_tensor_dtype t :
  t_dtype (PyTorchTensorRTCompiler.to_backend_tensor t)
  = if decide (t_dtype t = torch_int64) then torch_int32 else t_dtype t.
Proof.
  unfold PyTorchTensorRTCompiler.to_backend_tensor.
  destruct t as [[] sh c]; reflexivity.
Qed.

Lemma to_backend_tensor_shape t :
  t_shape (PyTorchTensorRTCompiler.to_backend_tensor t) = t_shape t
  ∧ t_cuda (PyTorchTensorRTCompiler.to_backend_tensor t) = true.
Proof.
  unfold PyTorchTensorRTCompiler.to_backend_tensor.
  by destruct (bool_decide _).
Qed.

Lemma input_spec_of_int64 dtype t :
  t_dtype t = torch_int64 →
  in_dtype (PyTorchTensorRTCompiler.input_spec dtype
              (PyTorchTensorRTCompiler.to_backend_tensor t)) = torch_int32.
Proof.
  intros Ht. unfold PyTorchTensorRTCompiler.input_spec. cbn [in_dtype].
  rewrite to_backend_tensor_dtype, Ht. simpl.
  by destruct (bool_decide (dtype = torch_half)).
Qed.

Lemma presented_as_intro dtype sample :
  presented_as sample (PyTorchTensorRTCompiler.to_backend_tensor <$> sample)
    (PyTorchTensorRTCompiler.input_spec dtype
       <$> (PyTorchTensorRTCompiler.to_backend_tensor <$> sample)).
Proof.
  split.
  - apply Forall2_fmap_r, Forall_Forall2_diag, Forall_forall. intros t _.
    cbv beta. destruct (to_backend_tensor_shape t) as [Hs Hc].
    split; [exact Hs|]. split; [exact Hc|]. apply to_backend_tensor_dtype.
  - do 2 apply Forall2_fmap_r.
    apply Forall_Forall2_diag, Forall_forall. intros t _. cbv beta. split.
    + cbn [PyTorchTensorRTCompiler.input_spec in_shape].
      apply to_backend_tensor_shape.
    + apply input_spec_of_int64.
Qed.

(** C9: whenever a call of the native-graph strategy reaches the backend
    compilation, for every quantization type, the input specifications it
    hands over are built from the tensors [to_backend_tensor] makes of the
    first sample: position by position these have the shape of the sample's
    tensor and live on the accelerator, a 64-bit integer tensor has become
    a 32-bit integer tensor and every other tensor has kept its dtype; the
    input specification of a 64-bit integer tensor has dtype int32; and the
    tensors given to the tracer, when tracing happens, are these same
    tensors. *)
Theorem int64_inputs_presented_as_int32
    B device model mp tfms ths q data w obj specs prec cal :
  let o := PyTorchTensorRTCompiler.execute B device model mp tfms ths q
             data w in
  TrtCompile obj specs prec cal ∈ events o →
  ∃ d sample dtype,
    data = Some d ∧ head (dm_samples d) = Some sample
    ∧ let tensors := PyTorchTensorRTCompiler.to_backend_tensor <$> sample in
      specs = (PyTorchTensorRTCompiler.input_spec dtype <$> tensors)
      ∧ presented_as sample tensors specs
      ∧ ∀ m ts, JitTrace m ts ∈ events o → ts = tensors.
Proof.
  intros o; subst o. by_wp. wp_exec.
  all: intros Hin; invert_event Hin.
  all: inversion Hin; subst; clear Hin.
  all: eexists _, _, _; split; [reflexivity|];
    split; [by match goal with
              | H : dm_samples _ = _ :: _ |- _ => rewrite H
              end|]; cbv zeta;
    split; [reflexivity|]; split; [apply presented_as_intro|].
  all: intros ? ? Hjt; invert_event Hjt; by inversion Hjt.
Qed.

Lemma int64_inputs_presented_as_int32_witness :
  ∃ d sample dtype,
    Some Scenario.data = Some d ∧ head (dm_samples d) = Some sample
    ∧ let tensors := PyTorchTensorRTCompiler.to_backend_tensor <$> sample in
      [mkInput [1; 128] torch_int32; mkInput [1; 3; 224; 224] torch_float32]
      = (PyTorchTensorRTCompiler.input_spec dtype <$> tensors)
      ∧ presented_as sample tensors
          [mkInput [1; 128] torch_int32;
           mkInput [1; 3; 224; 224] torch_float32]
      ∧ ∀ m ts,
          JitTrace m ts
          ∈ events (PyTorchTensorRTCompiler.execute Scenario.backend GPU 0
                      Scenario.params (Some 0%nat) None None
                      (Some Scenario.data) Scenario.world) →
          ts = tensors.
Proof.
  apply (int64_inputs_presented_as_int32 Scenario.backend GPU 0
           Scenario.params (Some 0%nat) None None (Some Scenario.data)
           Scenario.world (NNModule 0)
           [mkInput [1; 128] torch_int32;
            mkInput [1; 3; 224; 224] torch_float32]
           [torch_float32] None).
  vm_compute. find_event.
Defined.

(** ** Parse failure *)

Lemma split_at_here {X} (x : X) post : ∃ pre, x :: post = pre ++ x :: post.
Proof. by exists []. Qed.

Lemma split_at_further {X} (x y : X) l post :
  (∃ pre, l = pre ++ x :: post) → ∃ pre, y :: l = pre ++ x :: post.
Proof. intros [pre ->]. by exists (y :: pre). Qed.

Lemma split_at_app {X} (x : X) l1 l2 post :
  (∃ pre, l2 = pre ++ x :: post) → ∃ pre, l1 ++ l2 = pre ++ x :: post.
Proof. intros [pre ->]. exists (l1 ++ pre). by rewrite app_assoc. Qed.

(** C6, as amended: when, during a call of the interchange-format
    strategy, the backend parser fails on the chosen graph file (the
    original or its simplified sibling), [execute] raises the [ValueError]
    whose message names that file and nothing else; the last entries of
    the log are the failed parse followed by one debug message per
    diagnostic the parser reports, all of them and in order, and the log
    holds no other debug message: as many diagnostics as the parser
    reports, none when it reports none; and the call produces no artifact
    and no absent result: [compiled_model] is left as it was. *)
Theorem parse_failure_raises_invalid_model
    B device model mp tfms ths q data w p :
  let o := ONNXTensorRTCompiler.execute B device model mp tfms ths q
             data w in
  ParseFromFile p false ∈ events o →
  result o
  = Raise (ValueError ("Errors occurred while processing the "
                       +:+ "ONNX file at " +:+ p))
  ∧ (p = model ∨ p = model +:+ "_simplified")
  ∧ (∃ pre, events o
            = pre ++ ParseFromFile p false
                :: (LogDebug <$> (parse_from_file B p (fs (final o))).2))
  ∧ (∀ msg,
       LogDebug msg ∈ events o
       ↔ msg ∈ (parse_from_file B p (fs (final o))).2)
  ∧ count is_artifact (events o) = 0%nat
  ∧ count is_absent (events o) = 0%nat
  ∧ compiled_model (final o) = compiled_model w.
Proof.
  intros o; subst o. by_wp. wp_exec.
  all: intros Hin; invert_event Hin.
  all: cbn [fst] in Hin; inversion Hin; subst; clear Hin; try discriminate.
  all: world_simpl.
  all: split; [reflexivity|]; split; [by auto|].
  all: match goal with H : parse_from_file _ _ _ = _ |- _ => rewrite H end;
    cbn [snd].
  all: split;
    [ cbn [app]; rewrite ?app_nil_r;
      repeat first
        [apply split_at_here | apply split_at_further | apply split_at_app]
    | ].
  all: split;
    [ intros msg; split;
      [ intros Hmsg; invert_event Hmsg;
        apply list_elem_of_fmap in Hmsg as (m' & [= ->] & Hm'); exact Hm'
      | intros Hmsg; cbn [app]; rewrite ?app_nil_r;
        repeat first
          [ apply list_elem_of_fmap_2; exact Hmsg
          | apply list_elem_of_further
          | apply elem_of_app; right ] ]
    | ].
  all: split; [by count_events|]; split; [by count_events|done].
Qed.

Lemma parse_failure_raises_invalid_model_witness :
  result (ONNXTensorRTCompiler.execute Scenario.unsimplifiable_backend GPU
            "model.onnx" Scenario.params (Some 0%nat) None None
            (Some Scenario.data) Scenario.world)
  = Raise (ValueError ("Errors occurred while processing the "
                       +:+ "ONNX file at " +:+ "model.onnx_simplified")).
Proof.
  refine (proj1 (parse_failure_raises_invalid_model
            Scenario.unsimplifiable_backend GPU "model.onnx" Scenario.params
            (Some 0%nat) None None (Some Scenario.data) Scenario.world
            "model.onnx_simplified" _)).
  vm_compute. find_event.
Defined.

(** C6 as stated fails when the parser rejects the file without reporting
    a diagnostic: the call raises the [ValueError] naming the file, and no
    diagnostic was collected. *)
Lemma silent_parse_failure_collects_no_diagnostic :
  let o := ONNXTensorRTCompiler.execute
             (Variants.with_parser Variants.silent_parser
                (get_input_names Scenario.backend) Scenario.backend)
             GPU "model.onnx" Scenario.params (Some 0%nat) None None
             (Some Scenario.data) Scenario.world in
  result o
  = Raise (ValueError
             "Errors occurred while processing the ONNX file at model.onnx_simplified")
  ∧ ParseFromFile "model.onnx_simplified" false ∈ events o
  ∧ ∀ msg, LogDebug msg ∉ events o.
Proof.
  cbv zeta. split; [by vm_compute|]. split; [vm_compute; find_event|].
  intros msg Hin. vm_compute in Hin.
  match type of Hin with list_elem_of ?x ?l => change (x ∈ l) in Hin end.
  invert_event Hin.
Qed.

(** ** The dynamic-shape profile of a call *)

Lemma set_shape_calls_app evs1 evs2 :
  set_shape_calls (evs1 ++ evs2)
  = set_shape_calls evs1 ++ set_shape_calls evs2.
Proof.
  induction evs1 as [|e evs1 IH]; [done|]. destruct e; simpl; by rewrite ?IH.
Qed.

Lemma set_shape_calls_fmap triples :
  set_shape_calls (SetShape <$> triples) = triples.
Proof. induction triples as [|t l IH]; simpl; [done|]. by f_equal. Qed.

Lemma set_shape_calls_debug msgs : set_shape_calls (LogDebug <$> msgs) = [].
Proof. induction msgs as [|m l IH]; simpl; [done|]. exact IH. Qed.

Lemma set_shape_calls_preparation evs :
  Forall (λ e, is_preparation e = true) evs → set_shape_calls evs = [].
Proof.
  induction 1 as [|e evs He _ IH]; [done|]. by destruct e.
Qed.

(** The [set_shape] calls of the log of a finished symbolic run. *)
Ltac shape_calls :=
  cbn [app];
  repeat first
    [ progress cbn [set_shape_calls]
    | rewrite set_shape_calls_app
    | rewrite set_shape_calls_fmap
    | rewrite set_shape_calls_debug
    | match goal with
      | HF : Forall _ ?evs |- context [set_shape_calls ?evs] =>
          rewrite (set_shape_calls_preparation evs HF)
      end ];
  cbn [app]; rewrite ?app_nil_r.

(** C5, as amended: in every call of the interchange-format strategy that
    reaches the build of the engine for a model with dynamic shape
    information, the [set_shape] calls made are, in order, the triples of
    the profile for the input names of the file that was parsed: one for
    each position that the input names, the dynamic-axis sets and the input
    descriptions all reach, and none beyond.  At such a position the
    minimum shape has batch dimension [min(batch_size, 1)] when dimension 0
    is dynamic and [batch_size] otherwise, and dimension [j+1] equal to the
    declared minimum bound (1 when none is declared) when that dimension is
    dynamic and to the static size otherwise; the optimal and maximum
    shapes are both [batch_size] followed by the static sizes.  On the
    example of the specification the one call made has the triple
    (1,3,32,224), (8,3,224,224), (8,3,224,224). *)
Theorem dynamic_shape_profile :
  (∀ B device model mp tfms ths q data w di,
     let o := ONNXTensorRTCompiler.execute B device model mp tfms ths q
                data w in
     dynamic_info mp = Some di →
     BuildSerializedNetwork ∈ events o →
     ∃ p,
       (p = model ∨ p = model +:+ "_simplified")
       ∧ ParseFromFile p true ∈ events o
       ∧ set_shape_calls (events o)
         = build_profile (get_input_names B p) mp di
       ∧ length (set_shape_calls (events o))
         = (length (get_input_names B p)
            `min` (length (inputs di) `min` length (input_infos mp)))%nat
       ∧ ∀ k name dyn info,
           get_input_names B p !! k = Some name →
           inputs di !! k = Some dyn →
           input_infos mp !! k = Some info →
           ∃ t, set_shape_calls (events o) !! k = Some t
             ∧ st_name t = name
             ∧ length (st_min t) = S (length (InputInfo.size info))
             ∧ st_min t !! 0%nat
               = Some (if decide (0 ∈ dyn) then Z.min (batch_size mp) 1
                       else batch_size mp)
             ∧ (∀ j sz,
                  InputInfo.size info !! j = Some sz →
                  st_min t !! S j
                  = Some (if decide (Z.of_nat (S j) ∈ dyn)
                          then default 1
                                 (default ∅ (InputInfo.min_sizes info)
                                    !! Z.of_nat (S j))
                          else sz))
             ∧ st_opt t = batch_size mp :: InputInfo.size info
             ∧ st_max t = batch_size mp :: InputInfo.size info)
  ∧ set_shape_calls
      (events (ONNXTensorRTCompiler.execute Scenario.backend GPU "model.onnx"
                 Scenario.image_params (Some 0%nat) None None
                 (Some Scenario.data) Scenario.world))
    = [mkShapeTriple "input_ids" [1; 3; 32; 224] [8; 3; 224; 224]
         [8; 3; 224; 224]].
Proof.
  split; [|by vm_compute].
  intros B device model mp tfms ths q data w di o; subst o. by_wp. wp_exec.
  all: intros Hd Hin; invert_event Hin.
  all: first [discriminate Hd | injection Hd as ->].
  all: try match goal with
    | Hp : parse_from_file _ _ _ = (?b, _), Hb : negb ?b = false |- _ =>
        apply negb_false_iff in Hb; subst b
    end.
  all: cbn [fst snd].
  all: eexists; split; [eassumption|]; split; [find_event|].
  all: match goal with
       | |- ?calls = ?profile ∧ _ =>
           assert (calls = profile) as Hcalls by (by shape_calls)
       end.
  all: split; [exact Hcalls|]; rewrite Hcalls.
  all: split;
    [ unfold build_profile; by rewrite length_fmap, !length_zip_with
    | intros k name dyn info Hn Hdy Hi; by apply build_profile_entry ].
Qed.

Lemma dynamic_shape_profile_witness :
  ∃ p,
    (p = "model.onnx" ∨ p = "model.onnx" +:+ "_simplified")
    ∧ ParseFromFile p true
      ∈ events (ONNXTensorRTCompiler.execute Scenario.backend GPU
                  "model.onnx" Scenario.image_params (Some 0%nat) None None
                  (Some Scenario.data) Scenario.world)
    ∧ set_shape_calls
        (events (ONNXTensorRTCompiler.execute Scenario.backend GPU
                   "model.onnx" Scenario.image_params (Some 0%nat) None None
                   (Some Scenario.data) Scenario.world))
      = build_profile (get_input_names Scenario.backend p)
          Scenario.image_params Scenario.image_dynamic.
Proof.
  destruct (proj1 dynamic_shape_profile Scenario.backend GPU "model.onnx"
              Scenario.image_params (Some 0%nat) None None
              (Some Scenario.data) Scenario.world Scenario.image_dynamic)
    as (p & Hp & Hparse & Hcalls & _).
  - reflexivity.
  - vm_compute. find_event.
  - exists p. by repeat split.
Defined.

(** C5 as stated fails for an input the zip does not reach: the model
    declares two inputs, the graph has two inputs, and dynamic axes are
    given for the first only; the call returns, and the second declared
    input has no triple. *)
Lemma second_declared_input_gets_no_shape :
  let o := ONNXTensorRTCompiler.execute
             (Variants.with_parser (parse_from_file Scenario.backend)
                Variants.two_input_names Scenario.backend)
             GPU "model.onnx" Variants.two_input_params (Some 0%nat) None
             None (Some Scenario.data) Scenario.world in
  result o = Ok tt
  ∧ length (input_infos Variants.two_input_params) = 2%nat
  ∧ length (Variants.two_input_names "model.onnx_simplified") = 2%nat
  ∧ set_shape_calls (events o)
    = [mkShapeTriple "input_ids" [1; 3; 32; 224] [8; 3; 224; 224]
         [8; 3; 224; 224]].
Proof. by vm_compute. Qed.

(** ** The simplification pre-pass *)

Ltac run_simplify :=
  cbv beta iota zeta delta
    [try_except mbind M_bind mret M_ret raise get_world any_exception negb
     ONNXTensorRTCompiler.import_onnxsim ONNXTensorRTCompiler.is_file
     ONNXTensorRTCompiler.run].

Lemma simplify_without_onnxsim B model w :
  onnxsim_importable B = false →
  ONNXTensorRTCompiler.simplify B model w = mkOutcome (Ok model) w [].
Proof.
  intros H. unfold ONNXTensorRTCompiler.simplify. run_simplify.
  rewrite H. reflexivity.
Qed.

Lemma simplify_when_run_raises B model w e files :
  onnxsim_importable B = true →
  model +:+ "_simplified" ∉ fs w →
  subprocess_run B ["onnxsim"; model; model +:+ "_simplified"] (fs w)
  = (Raise e, files) →
  ONNXTensorRTCompiler.simplify B model w
  = mkOutcome (Ok model) (set_fs files w)
      [SubprocessRun ["onnxsim"; model; model +:+ "_simplified"]].
Proof.
  intros Hi Hf Hr.
  unfold ONNXTensorRTCompiler.simplify. run_simplify. rewrite Hi.
  run_simplify. rewrite (bool_decide_eq_false_2 _ Hf). run_simplify.
  rewrite Hr. reflexivity.
Qed.

(** The exit status of the command is not looked at: whatever it is, and
    whether or not the sibling file was written, the path of the sibling is
    the one chosen. *)
Lemma simplify_ignores_exit_status B model w status files :
  onnxsim_importable B = true →
  model +:+ "_simplified" ∉ fs w →
  subprocess_run B ["onnxsim"; model; model +:+ "_simplified"] (fs w)
  = (Ok status, files) →
  ONNXTensorRTCompiler.simplify B model w
  = mkOutcome (Ok (model +:+ "_simplified")) (set_fs files w)
      [SubprocessRun ["onnxsim"; model; model +:+ "_simplified"]].
Proof.
  intros Hi Hf Hr.
  unfold ONNXTensorRTCompiler.simplify. run_simplify. rewrite Hi.
  run_simplify. rewrite (bool_decide_eq_false_2 _ Hf). run_simplify.
  rewrite Hr. reflexivity.
Qed.

(** C8, the code at the failing input: onnxsim is installed but cannot
    simplify the graph; it exits with status 1 and writes no file.  The
    original file exists and the parser accepts it, yet the call parses
    only the sibling that was never written, and raises. *)
Theorem unsimplifiable_graph_is_fatal :
  let o := ONNXTensorRTCompiler.execute Scenario.unsimplifiable_backend GPU
             "model.onnx" Scenario.params (Some 0%nat) None None
             (Some Scenario.data) Scenario.world in
  parse_from_file Scenario.unsimplifiable_backend "model.onnx"
    (fs Scenario.world) = (true, [])
  ∧ subprocess_run Scenario.unsimplifiable_backend
      ["onnxsim"; "model.onnx"; "model.onnx_simplified"] (fs Scenario.world)
    = (Ok 1, fs Scenario.world)
  ∧ result o
    = Raise (ValueError
               "Errors occurred while processing the ONNX file at model.onnx_simplified")
  ∧ ParseFromFile "model.onnx_simplified" false ∈ events o
  ∧ ∀ success, ParseFromFile "model.onnx" success ∉ events o.
Proof.
  cbv zeta. split; [by vm_compute|]. split; [by vm_compute|].
  split; [by vm_compute|]. split; [vm_compute; find_event|].
  intros success Hin. vm_compute in Hin.
  match type of Hin with list_elem_of ?x ?l => change (x ∈ l) in Hin end.
  invert_event Hin.
Qed.

(** ** The sample data source *)




(** * Further properties of the two strategies *)

(** ** More rules of the postcondition calculus *)

(** An outcome is known once the calculus has derived each of its parts. *)
Lemma wp_outcome_eq {A} (m : M A) w o :
  wp m w (λ r w' evs, mkOutcome r w' evs = o) → m w = o.
Proof. unfold wp. by destruct (m w). Qed.

Lemma static_without_data_cond q (data : option DataManager) :
  is_STATIC q && is_None data = true → q = Some STATIC ∧ data = None.
Proof.
  intros [Hq Hd]%andb_true_iff. split.
  - exact (bool_decide_eq_true_1 _ Hq).
  - by destruct data.
Qed.

Lemma not_supported_cond device q :
  negb (bool_decide (q ∈ default [] (supported_ops !! device_value device)))
  = true →
  in_support_table device q → False.
Proof.
  intros H%negb_true_iff Hq. exact (bool_decide_eq_false_1 _ H Hq).
Qed.

(** Symbolic execution that keeps the worlds in the goal projected, so
    that an oracle's arguments read as in the hypotheses. *)
Ltac wp_norm :=
  cbn [heap pipelines fs compiled_model model_orig set_heap set_pipelines
       set_fs set_compiled_model set_model_orig storage_of with_storage].

Ltac wp_exec_norm := repeat (wp_step; wp_norm).

Lemma fresh_storage_other (h : gmap nat ModuleState) (l l0 : nat) s f :
  h !! l = Some s → fresh (dom (alter f l0 h)) ≠ l.
Proof.
  intros Hl Heq. apply (is_fresh (dom (alter f l0 h))). rewrite Heq.
  apply elem_of_dom. destruct (decide (l0 = l)) as [->|Hne].
  - rewrite lookup_alter_eq, Hl. by eexists.
  - rewrite lookup_alter_ne, Hl by done. by eexists.
Qed.

Lemma without_absent_file (files : gset string) (path : string) :
  bool_decide (path ∈ files) = false → files = files ∖ {[path]}.
Proof.
  intros H. symmetry. apply difference_disjoint_L, disjoint_singleton_r.
  exact (bool_decide_eq_false_1 _ H).
Qed.

(** *** Exact rules for the interchange-format strategy *)

(** The simplification pre-pass, case by case. *)
Lemma wp_simplify_cases B model w
    (Q : Result string → World → list Event → Prop) :
  (onnxsim_importable B = false → Q (Ok model) w []) →
  (onnxsim_importable B = true → model +:+ "_simplified" ∈ fs w →
   Q (Ok (model +:+ "_simplified")) w []) →
  (∀ r files,
     onnxsim_importable B = true →
     model +:+ "_simplified" ∉ fs w →
     subprocess_run B ["onnxsim"; model; model +:+ "_simplified"] (fs w)
     = (r, files) →
     Q (Ok (match r with
            | Ok _ => model +:+ "_simplified"
            | Raise _ => model
            end))
       (set_fs files w)
       [SubprocessRun ["onnxsim"; model; model +:+ "_simplified"]]) →
  wp (ONNXTensorRTCompiler.simplify B model) w Q.
Proof.
  intros Hno Hold Hrun. unfold ONNXTensorRTCompiler.simplify. wp_exec_core.
  all: cbn [app].
  all: try match goal with
    | H : negb _ = true |- _ => apply negb_true_iff in H
    | H : negb _ = false |- _ => apply negb_false_iff in H
    end.
  all: first
    [ eapply (Hrun (Ok _)); [reflexivity| |eassumption]
    | eapply (Hrun (Raise _)); [reflexivity| |eassumption]
    | apply Hold; [reflexivity|]
    | by apply Hno ].
  all: match goal with
    | H : bool_decide _ = _ |- _ =>
        first [ exact (bool_decide_eq_false_1 _ H)
              | exact (bool_decide_eq_true_1 _ H) ]
    end.
Qed.

Lemma Forall_fmap_const {X} (P : Event → Prop) (f : X → Event) (l : list X) :
  (∀ x, P (f x)) → Forall P (f <$> l).
Proof. intros H. apply Forall_fmap, Forall_forall. intros x _. apply H. Qed.

Ltac forall_events :=
  repeat first
    [ apply Forall_nil_2
    | apply Forall_cons_2; [reflexivity|]
    | apply Forall_app_2
    | apply Forall_fmap_const; intros ?; reflexivity ].

(** The build phase, from the quantization of the configuration to the two
    assignments: it runs no command and touches neither the memory budget,
    the files nor the torch modules; it parses the chosen path only, in the
    files as they are; and it assigns both attributes or none. *)
Lemma wp_build_phase B path mp tfms q config network train w
    (Q : Result unit → World → list Event → Prop) :
  (∀ r w' evs,
     Forall (λ e, is_preparation e = false) evs →
     fs w' = fs w → heap w' = heap w →
     (q = None → pipelines w' = pipelines w) →
     (∀ p s,
        ParseFromFile p s ∈ evs →
        p = path ∧ s = (parse_from_file B path (fs w)).1) →
     match r with
     | Ok _ =>
         model_orig w' = Some path
         ∧ ∃ cfg a,
             build_serialized_network B
               (mkNetwork (net_flags network) (Some path)) cfg = Ok a
             ∧ compiled_model w' = Some a
             ∧ ParseFromFile path true ∈ evs
     | Raise _ =>
         model_orig w' = model_orig w
         ∧ compiled_model w' = compiled_model w
     end →
     Q r w' evs) →
  wp (config ←
        match q with
        | Some q0 =>
            ONNXTensorRTCompiler._quantize_model B q0 mp config tfms
              (if is_STATIC q then Some train else None)
        | None => mret config
        end;
      engine ← ONNXTensorRTCompiler._compile_model B path mp config network;
      self_set_compiled_model (Some engine);;
      self_set_model_orig path) w Q.
Proof.
  intros H. wp_exec_core.
  all: world_simpl.
  all: try match goal with
    | Hp : parse_from_file _ _ _ = (?b, _), Hb : negb ?b = false |- _ =>
        apply negb_false_iff in Hb; subst b
    | Hp : parse_from_file _ _ _ = (?b, _), Hb : negb ?b = true |- _ =>
        apply negb_true_iff in Hb; subst b
    end.
  all: cbn [fst snd].
  all: apply H; cbn [app]; [forall_events|reflexivity|reflexivity| | |].
  all: try (intros [=]).
  all: try reflexivity.
  all: try (split; reflexivity).
  all: try (intros p s Hin; invert_event Hin; inversion Hin; subst;
            (split;
             [ reflexivity
             | first
                 [ reflexivity
                 | match goal with
                   | Hp : parse_from_file _ _ _ = _ |- _ => by rewrite Hp
                   end ] ])).
  all: split; [reflexivity|].
  all: eexists _, _; split; [eassumption|]; split; [reflexivity|find_event].
Qed.

Lemma non_preparation_elem evs e :
  Forall (λ e, is_preparation e = false) evs → e ∈ evs →
  is_preparation e = false.
Proof. intros HF Hin. by apply (proj1 (Forall_forall _ _) HF). Qed.

(** Symbolic execution with the exact rule of the pre-pass and the summary
    of the build phase; a condition a hypothesis decides is rewritten, and
    a case a hypothesis excludes is dropped. *)
Ltac wpx_step :=
  first
    [ match goal with
      | H : ?b = _ |- wp (if ?b then _ else _) _ _ => rewrite H
      end
    | lazymatch goal with
      | |- wp (ONNXTensorRTCompiler.simplify _ _) _ _ =>
          apply wp_simplify_cases;
          [intros ?|intros ? ?|intros [?|?] ? ? ? ?];
          try solve [exfalso; first [congruence | contradiction]]
      | |- wp (mbind _
                 (match _ with
                  | Some _ => ONNXTensorRTCompiler._quantize_model _ _ _ _ _ _
                  | None => _
                  end)) _ _ =>
          apply wp_build_phase; intros ? ? ? ? ? ? ? ? ?
      | |- _ => wp_step_core
      end ];
  cbv beta iota zeta.

Ltac wpx_exec := repeat wpx_step.

(** The same with the summaries of all three phases. *)
Ltac wps_step :=
  lazymatch goal with
  | |- wp (mbind _
             (match _ with
              | Some _ => ONNXTensorRTCompiler._quantize_model _ _ _ _ _ _
              | None => _
              end)) _ _ =>
      apply wp_build_phase; intros ? ? ? ? ? ? ? ? ?
  | |- _ => wp_step
  end;
  cbv beta iota zeta.

Ltac wps_exec := repeat wps_step.

(** Inversion of the membership of an event in the log of such a run. *)
Ltac invert_event_x H :=
  cbn [app] in H;
  repeat lazymatch type of H with
    | _ ∈ [] => by apply elem_of_nil in H
    | _ ∈ _ :: _ =>
        apply elem_of_cons in H as [H|H]; [try discriminate H|]
    | _ ∈ _ ++ _ => apply elem_of_app in H as [H|H]
    | _ ∈ ?evs =>
        lazymatch goal with
        | HF : Forall (λ e, is_preparation e = false) evs |- _ =>
            apply (non_preparation_elem _ _ HF) in H; discriminate H
        end
    end.

(** The event of a parse in the log of a run whose build phase is
    summarised. *)
Ltac parse_event H :=
  invert_event_x H;
  match goal with
  | Hp : ∀ p s, ParseFromFile p s ∈ _ → _ |- _ =>
      destruct (Hp _ _ H) as [-> ->]
  end.

(** ** The dynamic-shape profile, further *)

(** X1: the dynamic-shape profile has one [set_shape] entry per position
    that the input names of the graph, the dynamic-axis sets and the input
    descriptions all have: Python's [zip] stops at the shortest of the
    three, so an input beyond it gets no shape, without any error. *)
Theorem profile_has_one_entry_per_zipped_input names mp di :
  length (build_profile names mp di)
  = (length names `min` (length (inputs di) `min` length (input_infos mp)))%nat.
Proof.
  unfold build_profile. by rewrite length_fmap, !length_zip_with.
Qed.

(** X2: an entry of an input's dynamic-axis set that is negative or larger
    than the number of its dimensions has no effect: when every entry is
    such, the minimum shape is the optimal (and maximum) shape,
    [batch_size] followed by the static sizes. *)
Theorem axes_out_of_range_are_ignored bs dyn info :
  (∀ a, a ∈ dyn → a < 0 ∨ Z.of_nat (length (InputInfo.size info)) < a) →
  profile_min bs dyn info = profile_opt bs info.
Proof.
  intros Hdyn. unfold profile_min, profile_opt. f_equal.
  - rewrite bool_decide_eq_false_2; [done|]. intros H0.
    destruct (Hdyn 0 H0); lia.
  - apply list_eq. intros i. rewrite list_lookup_imap.
    destruct (InputInfo.size info !! i) as [sz|] eqn:Hi; [|done]. simpl.
    rewrite bool_decide_eq_true_2; [done|]. intros Hin.
    apply lookup_lt_Some in Hi. destruct (Hdyn _ Hin); lia.
Qed.

Lemma axes_out_of_range_are_ignored_witness :
  profile_min 8 {[-1; 4]} Scenario.image_info = [8; 3; 224; 224].
Proof.
  apply (axes_out_of_range_are_ignored 8 {[-1; 4]} Scenario.image_info).
  intros a Ha. apply elem_of_union in Ha as [Ha|Ha];
    apply elem_of_singleton in Ha; subst a; simpl; lia.
Defined.

(** X3: the minimum shape is below the optimal shape in every dimension,
    the batch dimension included and whatever the batch size, as soon as
    the minimum used for each dynamic dimension (the declared bound, or 1)
    does not exceed the static size of that dimension.  The code does not
    check the bounds itself. *)
Theorem profile_min_below_opt bs dyn info :
  (∀ j sz,
     InputInfo.size info !! j = Some sz →
     Z.of_nat (S j) ∈ dyn →
     default 1 (default ∅ (InputInfo.min_sizes info) !! Z.of_nat (S j)) ≤ sz) →
  Forall2 Z.le (profile_min bs dyn info) (profile_opt bs info).
Proof.
  intros Hb. unfold profile_min, profile_opt. constructor.
  - destruct (bool_decide (0 ∈ dyn)); lia.
  - apply Forall2_same_length_lookup_2; [by rewrite length_imap|].
    intros i x y Hx Hy. rewrite list_lookup_imap, Hy in Hx. simpl in Hx.
    injection Hx as <-.
    destruct (decide (Z.of_nat i + 1 ∈ dyn)) as [Hin|Hin].
    + rewrite bool_decide_eq_false_2 by (intros Hn; by apply Hn).
      replace (Z.of_nat i + 1) with (Z.of_nat (S i)) in * by lia.
      by apply Hb.
    + rewrite bool_decide_eq_true_2 by done. lia.
Qed.

Lemma profile_min_below_opt_witness :
  Forall2 Z.le (profile_min 8 {[0; 2]} Scenario.image_info)
    (profile_opt 8 Scenario.image_info).
Proof.
  apply (profile_min_below_opt 8 {[0; 2]} Scenario.image_info).
  intros [|[|[|j]]] sz Hsz Hin; vm_compute in Hsz; try discriminate Hsz;
    injection Hsz as <-.
  - vm_compute. discriminate.
  - vm_compute. discriminate.
  - exfalso. apply elem_of_union in Hin as [Hin|Hin];
      apply elem_of_singleton in Hin; lia.
Defined.

(** X4: when the parser accepts the file, [_compile_model] of the
    interchange-format strategy leaves the world as it is and returns
    whatever the builder returns for the parsed network.  With dynamic
    shape information it first creates one optimisation profile, gives it
    one shape per zipped input, the names being read from the parsed file,
    in order, and adds it to the configuration; without, it creates no
    profile.  The diagnostics of a successful parse are not looked at. *)
Theorem engine_is_built_from_the_profiled_network
    B path mp config network w errors :
  parse_from_file B path (fs w) = (true, errors) →
  ONNXTensorRTCompiler._compile_model B path mp config network w
  = match dynamic_info mp with
    | Some di =>
        let profile := build_profile (get_input_names B path) mp di in
        mkOutcome
          (build_serialized_network B
             (mkNetwork (net_flags network) (Some path))
             (mkBuilderConfig (cfg_memory_pool_limit config)
                (cfg_quantization config) (cfg_calibration_data config)
                (cfg_profiles config ++ [profile])))
          w
          (ParseFromFile path true :: CreateOptimizationProfile
           :: (SetShape <$> profile)
           ++ [AddOptimizationProfile; BuildSerializedNetwork])
    | None =>
        mkOutcome
          (build_serialized_network B
             (mkNetwork (net_flags network) (Some path)) config)
          w [ParseFromFile path true; BuildSerializedNetwork]
    end.
Proof.
  intros Hp. apply wp_outcome_eq. wp_exec_core.
  all: simplify_eq/=; rewrite ?app_nil_r, <- ?app_assoc; reflexivity.
Qed.

Lemma engine_is_built_from_the_profiled_network_witness :
  ONNXTensorRTCompiler._compile_model Scenario.backend "model.onnx"
    Scenario.image_params (mkBuilderConfig None None None [])
    (mkNetwork 1 None) Scenario.world
  = mkOutcome (Ok (Engine 2)) Scenario.world
      [ParseFromFile "model.onnx" true; CreateOptimizationProfile;
       SetShape (mkShapeTriple "input_ids" [1; 3; 32; 224] [8; 3; 224; 224]
                   [8; 3; 224; 224]);
       AddOptimizationProfile; BuildSerializedNetwork].
Proof.
  apply (engine_is_built_from_the_profiled_network Scenario.backend
           "model.onnx" Scenario.image_params
           (mkBuilderConfig None None None []) (mkNetwork 1 None)
           Scenario.world []).
  by vm_compute.
Defined.

(** ** Errors before the backends are reached *)

(** X5: on a supported pair, an exception of [check_quantization]
    propagates out of [execute] of either strategy unchanged; by then the
    call has logged its one info message and done nothing else: the world
    is as it was, the data source was not read and no backend was
    called. *)
Theorem quantization_check_failure_propagates B device q ths e :
  in_support_table device q →
  check_quantization B q ths = Raise e →
  (∀ model mp tfms data w,
     ¬ (q = Some STATIC ∧ data = None) →
     PyTorchTensorRTCompiler.execute B device model mp tfms ths q data w
     = mkOutcome (Raise e) w
         [LogInfo ("Optimizing with PyTorchTensorRTCompiler and q_type: "
                   +:+ str_quantization_type q +:+ ".")])
  ∧ (∀ model mp tfms data w,
     ¬ (q = Some STATIC ∧ data = None) →
     ONNXTensorRTCompiler.execute B device model mp tfms ths q data w
     = mkOutcome (Raise e) w
         [LogInfo ("Optimizing with ONNXTensorRTCompiler and q_type: "
                   +:+ str_quantization_type q +:+ ".")]).
Proof.
  intros Hq Hc. split; intros model mp tfms data w Hd;
    apply wp_outcome_eq; wp_exec; first
      [ reflexivity
      | exfalso; apply Hd; by apply static_without_data_cond ].
Qed.

Lemma quantization_check_failure_propagates_witness :
  ONNXTensorRTCompiler.execute
    (Variants.with_check_quantization Variants.strict_check Scenario.backend)
    GPU "model.onnx" Scenario.params (Some 0%nat) None (Some HALF)
    (Some Scenario.data) Scenario.world
  = mkOutcome
      (Raise (ValueError "metric_drop_ths is required with a quantization type"))
      Scenario.world
      [LogInfo ("Optimizing with ONNXTensorRTCompiler and q_type: "
                +:+ str_quantization_type (Some HALF) +:+ ".")].
Proof.
  refine (proj2 (quantization_check_failure_propagates
            (Variants.with_check_quantization Variants.strict_check
               Scenario.backend)
            GPU (Some HALF) None _ _ _) "model.onnx" Scenario.params
            (Some 0%nat) (Some Scenario.data) Scenario.world _).
  - by rewrite gpu_supports.
  - reflexivity.
  - by intros [? ?].
Defined.

(** X6: a half-precision call of the native-graph strategy that is given
    no pipeline ([input_tfms] left at its default [None]) raises the
    [AttributeError] of [None.append] right after the quantization check:
    nothing but the info message was logged and the world is as it was. *)
Theorem half_without_pipeline_raises B device model mp ths data w :
  in_support_table device (Some HALF) →
  check_quantization B (Some HALF) ths = Ok tt →
  PyTorchTensorRTCompiler.execute B device model mp None ths (Some HALF)
    data w
  = mkOutcome
      (Raise (AttributeError "'NoneType' object has no attribute 'append'"))
      w [LogInfo "Optimizing with PyTorchTensorRTCompiler and q_type: QuantizationType.HALF."].
Proof.
  intros Hq Hc. apply wp_outcome_eq. wp_exec. reflexivity.
Qed.

Lemma half_without_pipeline_raises_witness :
  PyTorchTensorRTCompiler.execute Scenario.backend GPU 0 Scenario.params
    None None (Some HALF) (Some Scenario.data) Scenario.world
  = mkOutcome
      (Raise (AttributeError "'NoneType' object has no attribute 'append'"))
      Scenario.world
      [LogInfo "Optimizing with PyTorchTensorRTCompiler and q_type: QuantizationType.HALF."].
Proof.
  apply (half_without_pipeline_raises Scenario.backend GPU 0 Scenario.params
           None (Some Scenario.data) Scenario.world).
  - by rewrite gpu_supports.
  - reflexivity.
Defined.



(** ** What is read of the data source *)

(** X8: a call of the native-graph strategy reads of its data source the
    first sample only and, with static quantization, the "train" split and
    the batch size: two data sources that agree on these give the same
    result, the same final world and the same log. *)
Theorem native_call_reads_first_sample_only
    B device model mp tfms ths q d1 d2 w :
  head (dm_samples d1) = head (dm_samples d2) →
  (q = Some STATIC →
   dm_split d1 "train" = dm_split d2 "train"
   ∧ dm_batch_size d1 = dm_batch_size d2) →
  PyTorchTensorRTCompiler.execute B device model mp tfms ths q (Some d1) w
  = PyTorchTensorRTCompiler.execute B device model mp tfms ths q (Some d2) w.
Proof.
  intros Hh Hs.
  unfold PyTorchTensorRTCompiler.execute.
  apply bind_cong_same. intros ok w1. destruct ok; [|reflexivity].
  cbn [negb is_None]. rewrite !andb_false_r.
  apply bind_cong_same. intros _ w2. apply bind_cong_same. intros _ w3.
  destruct q as [[]|].
  - apply bind_cong_same. intros [dtype cal] w4.
    apply bind_cong_run. by apply get_list_1_head.
  - destruct (Hs eq_refl) as [Ht Hb].
    eapply bind_cong; [reflexivity|reflexivity|].
    cbn [dm_samples dm_batch_size]. rewrite Ht, Hb.
    apply bind_cong_run. by apply get_list_1_head.
  - apply bind_cong_same. intros [dtype cal] w4.
    apply bind_cong_run. by apply get_list_1_head.
  - apply bind_cong_same. intros [dtype cal] w4.
    apply bind_cong_run. by apply get_list_1_head.
Qed.

Lemma native_call_reads_first_sample_only_witness :
  PyTorchTensorRTCompiler.execute Scenario.backend GPU 0 Scenario.params
    (Some 0%nat) None None
    (Some (mkDataManager [[Scenario.pixels]; [Scenario.token_ids]]
             (λ _, []) 1))
    Scenario.world
  = PyTorchTensorRTCompiler.execute Scenario.backend GPU 0 Scenario.params
      (Some 0%nat) None None
      (Some (mkDataManager [[Scenario.pixels]] (λ _, [[Scenario.pixels]]) 4))
      Scenario.world.
Proof.
  apply (native_call_reads_first_sample_only Scenario.backend GPU 0
           Scenario.params (Some 0%nat) None None).
  - reflexivity.
  - discriminate.
Defined.

(** X9: a call of the interchange-format strategy makes nothing of the
    samples of its data source unless the quantization is static: with any
    other quantization type, two data sources give the same result, the
    same final world and the same log as soon as their "train" splits are
    both empty or both not (an empty split makes the extraction of the
    fixed-size sample raise, whatever the quantization type). *)
Theorem interchange_call_ignores_sample_contents
    B device model mp tfms ths q d1 d2 w :
  q ≠ Some STATIC →
  (dm_split d1 "train" = [] ↔ dm_split d2 "train" = []) →
  ONNXTensorRTCompiler.execute B device model mp tfms ths q (Some d1) w
  = ONNXTensorRTCompiler.execute B device model mp tfms ths q (Some d2) w.
Proof. apply interchange_run_ignores_samples. Qed.

Lemma interchange_call_ignores_sample_contents_witness :
  ONNXTensorRTCompiler.execute Scenario.backend GPU "model.onnx"
    Scenario.params (Some 0%nat) None (Some HALF) (Some Scenario.data)
    Scenario.world
  = ONNXTensorRTCompiler.execute Scenario.backend GPU "model.onnx"
      Scenario.params (Some 0%nat) None (Some HALF)
      (Some Variants.other_samples) Scenario.world.
Proof.
  apply (interchange_call_ignores_sample_contents Scenario.backend GPU
           "model.onnx" Scenario.params (Some 0%nat) None (Some HALF)).
  - discriminate.
  - split; discriminate.
Defined.

(** ** The compilation step of the native-graph strategy *)

(** X10: when scripting the model raises and tracing it raises too,
    [_compile_model] of the native-graph strategy raises the tracer's
    exception (the scripting exception is swallowed); the embedded compiler
    is not called, and the model has already been moved to the accelerator
    and put in evaluation mode. *)
Theorem tracer_failure_propagates B l ts dtype cal q w e1 e2 :
  torch_jit_script B (alter cuda_eval l (heap w)) (NNModule l) = Raise e1 →
  torch_jit_trace B (alter cuda_eval l (heap w)) (NNModule l) ts = Raise e2 →
  PyTorchTensorRTCompiler._compile_model B (NNModule l) ts dtype cal q w
  = mkOutcome (Raise e2) (set_heap (alter cuda_eval l (heap w)) w)
      [JitScript (NNModule l); JitTrace (NNModule l) ts].
Proof.
  intros Hs Ht. apply wp_outcome_eq. wp_exec_norm. reflexivity.
Qed.

Lemma tracer_failure_propagates_witness :
  PyTorchTensorRTCompiler._compile_model
    (Variants.with_jit (λ _ _, Raise (BackendError "unsupported construct"))
       (λ _ _ _, Raise (BackendError "tracing failed")) Scenario.backend)
    (NNModule 0) [Scenario.pixels] torch_float32 None None Scenario.world
  = mkOutcome (Raise (BackendError "tracing failed"))
      (set_heap (alter cuda_eval 0%nat (heap Scenario.world)) Scenario.world)
      [JitScript (NNModule 0); JitTrace (NNModule 0) [Scenario.pixels]].
Proof.
  apply (tracer_failure_propagates
           (Variants.with_jit
              (λ _ _, Raise (BackendError "unsupported construct"))
              (λ _ _ _, Raise (BackendError "tracing failed"))
              Scenario.backend)
           0%nat [Scenario.pixels] torch_float32 None None Scenario.world
           (BackendError "unsupported construct")
           (BackendError "tracing failed")); reflexivity.
Defined.

(** X11: as soon as a call of the native-graph strategy reaches the
    scripting of the model, the caller's own module has been moved to the
    accelerator and put in evaluation mode, in place, and it stays so
    whatever happens next, a failure of the embedded compiler included;
    what is scripted is that module. *)
Theorem model_is_moved_in_place
    B device model mp tfms ths q data w s obj :
  let o := PyTorchTensorRTCompiler.execute B device model mp tfms ths q
             data w in
  heap w !! model = Some s →
  JitScript obj ∈ events o →
  obj = NNModule model
  ∧ heap (final o) !! model = Some (cuda_eval s).
Proof.
  intros o Hm; subst o.
  pose proof (fresh_storage_ne (heap w) model s cuda_eval Hm) as Hfresh.
  by_wp. wp_exec.
  all: intros Hin; invert_event Hin.
  all: inversion Hin; subst; clear Hin.
  all: world_simpl.
  all: split; [reflexivity|].
  all: by rewrite ?lookup_alter_ne, ?lookup_insert_ne, lookup_alter_eq, Hm
         by done.
Qed.

Lemma model_is_moved_in_place_witness :
  NNModule 0 = NNModule 0
  ∧ heap (final (PyTorchTensorRTCompiler.execute
                   Scenario.failing_compile_backend GPU 0 Scenario.params
                   (Some 0%nat) None None (Some Scenario.data)
                   Scenario.world)) !! 0%nat
    = Some (cuda_eval Scenario.original_model).
Proof.
  apply (model_is_moved_in_place Scenario.failing_compile_backend GPU 0
           Scenario.params (Some 0%nat) None None (Some Scenario.data)
           Scenario.world Scenario.original_model (NNModule 0)).
  - by vm_compute.
  - vm_compute. find_event.
Defined.

(** X12: the result of [torch.jit.script] is not used.  Whenever the
    embedded compiler is called, the model was scripted first; when the
    scripting succeeded nothing was traced and the compiler is given a
    plain module; when it raised the model was traced and the compiler is
    given the traced module (or, in both cases with half precision, a
    copy; otherwise the parameters are those of the caller's module). *)
Theorem scripting_result_is_discarded
    B device model mp tfms ths q data w obj specs prec cal :
  let o := PyTorchTensorRTCompiler.execute B device model mp tfms ths q
             data w in
  TrtCompile obj specs prec cal ∈ events o →
  JitScript (NNModule model) ∈ events o
  ∧ match torch_jit_script B (alter cuda_eval model (heap w))
            (NNModule model) with
    | Ok _ =>
        (∀ m ts, JitTrace m ts ∉ events o) ∧ ∃ l, obj = NNModule l
    | Raise _ =>
        (∃ ts, JitTrace (NNModule model) ts ∈ events o)
        ∧ ∃ l, obj = TracedModule l
    end
  ∧ (q ≠ Some HALF → storage_of obj = model).
Proof.
  intros o; subst o. by_wp. wp_exec.
  all: intros Hin; invert_event Hin.
  all: inversion Hin; subst; clear Hin.
  all: world_simpl.
  all: split; [find_event|].
  all: match goal with
       | H : torch_jit_script _ _ _ = _ |- _ => rewrite H
       end.
  all: split; [|by intros Hq].
  all: split; [|by eexists].
  all: first [ eexists; find_event
             | intros ? ? Hjt; invert_event Hjt ].
Qed.

Lemma scripting_result_is_discarded_witness :
  let o := PyTorchTensorRTCompiler.execute Scenario.backend GPU 0
             Scenario.params (Some 0%nat) None None (Some Scenario.data)
             Scenario.world in
  JitScript (NNModule 0) ∈ events o
  ∧ ((∀ m ts, JitTrace m ts ∉ events o) ∧ ∃ l, NNModule 0 = NNModule l)
  ∧ (None ≠ Some HALF → storage_of (NNModule 0) = 0%nat).
Proof.
  apply (scripting_result_is_discarded Scenario.backend GPU 0
           Scenario.params (Some 0%nat) None None (Some Scenario.data)
           Scenario.world (NNModule 0)
           [mkInput [1; 128] torch_int32;
            mkInput [1; 3; 224; 224] torch_float32]
           [torch_float32] None).
  vm_compute. find_event.
Defined.

(** X13: the embedded compiler is given the precisions that
    [TORCH_TENSORRT_PRECISIONS] holds for the dtype of the request (half
    for half precision, int8 for static quantization, float32 otherwise),
    and a calibrator with static quantization only: one over the "train"
    split of the data source, with its batch size, unshuffled, without
    cache, with the entropy calibration of the second kind, on the first
    accelerator. *)
Theorem compile_receives_precision_and_calibrator
    B device model mp tfms ths q data w obj specs prec cal :
  let o := PyTorchTensorRTCompiler.execute B device model mp tfms ths q
             data w in
  TrtCompile obj specs prec cal ∈ events o →
  prec = TORCH_TENSORRT_PRECISIONS B
           (match q with
            | Some HALF => torch_half
            | Some STATIC => torch_int8
            | _ => torch_float32
            end)
  ∧ cal = match q, data with
          | Some STATIC, Some d =>
              Some (mkCalibrator (dm_split d "train") (dm_batch_size d)
                      false 0 false ENTROPY_CALIBRATION_2 "cuda:0")
          | _, _ => None
          end.
Proof.
  intros o; subst o. by_wp. wp_exec.
  all: intros Hin; invert_event Hin.
  all: inversion Hin; subst; clear Hin.
  all: split; reflexivity.
Qed.

Lemma compile_receives_precision_and_calibrator_witness :
  [torch_float32; torch_half; torch_int8]
  = TORCH_TENSORRT_PRECISIONS Scenario.backend torch_int8
  ∧ Some (mkCalibrator [[Scenario.token_ids; Scenario.pixels]] 1 false 0
            false ENTROPY_CALIBRATION_2 "cuda:0")
    = Some (mkCalibrator (dm_split Scenario.data "train")
              (dm_batch_size Scenario.data) false 0 false
              ENTROPY_CALIBRATION_2 "cuda:0").
Proof.
  apply (compile_receives_precision_and_calibrator Scenario.backend GPU 0
           Scenario.params (Some 0%nat) None (Some STATIC)
           (Some Scenario.data) Scenario.world (NNModule 0)
           [mkInput [1; 128] torch_int32;
            mkInput [1; 3; 224; 224] torch_float32]).
  vm_compute. find_event.
Defined.

Lemma declared_dtype q t :
  in_dtype
    (PyTorchTensorRTCompiler.input_spec
       (match q with
        | Some HALF => torch_half
        | Some STATIC => torch_int8
        | _ => torch_float32
        end)
       (PyTorchTensorRTCompiler.to_backend_tensor t))
  = if decide (t_dtype t = torch_int64) then torch_int32
    else if decide (q = Some HALF ∧ t_dtype t ≠ torch_int8
                    ∧ t_dtype t ≠ torch_int32)
         then torch_half else t_dtype t.
Proof. destruct q as [[]|], t as [[] sh c]; reflexivity. Qed.

Lemma declared_inputs q sample :
  Forall2 (λ t sp,
      in_shape sp = t_shape t
      ∧ in_dtype sp
        = if decide (t_dtype t = torch_int64) then torch_int32
          else if decide (q = Some HALF ∧ t_dtype t ≠ torch_int8
                          ∧ t_dtype t ≠ torch_int32)
               then torch_half else t_dtype t)
    sample
    (PyTorchTensorRTCompiler.input_spec
       (match q with
        | Some HALF => torch_half
        | Some STATIC => torch_int8
        | _ => torch_float32
        end)
       <$> (PyTorchTensorRTCompiler.to_backend_tensor <$> sample)).
Proof.
  do 2 apply Forall2_fmap_r.
  apply Forall_Forall2_diag, Forall_forall. intros t _. cbv beta. split.
  - cbn [PyTorchTensorRTCompiler.input_spec in_shape].
    apply to_backend_tensor_shape.
  - apply declared_dtype.
Qed.

(** X14: the input declarations given to the embedded compiler follow the
    tensors of the first sample position by position, with their shapes.
    A 64-bit integer tensor is declared int32.  With half precision every
    other tensor is declared half, except an int8 or int32 tensor, which
    keeps its dtype; with any other quantization type every other tensor
    keeps its dtype. *)
Theorem declared_input_dtypes
    B device model mp tfms ths q data w obj specs prec cal :
  let o := PyTorchTensorRTCompiler.execute B device model mp tfms ths q
             data w in
  TrtCompile obj specs prec cal ∈ events o →
  ∃ d sample,
    data = Some d ∧ head (dm_samples d) = Some sample
    ∧ Forall2 (λ t sp,
          in_shape sp = t_shape t
          ∧ in_dtype sp
            = if decide (t_dtype t = torch_int64) then torch_int32
              else if decide (q = Some HALF ∧ t_dtype t ≠ torch_int8
                              ∧ t_dtype t ≠ torch_int32)
                   then torch_half else t_dtype t)
        sample specs.
Proof.
  intros o; subst o. by_wp. wp_exec.
  all: intros Hin; invert_event Hin.
  all: inversion Hin; subst; clear Hin.
  all: eexists _, _; split; [reflexivity|];
    split; [by match goal with
              | H : dm_samples _ = _ :: _ |- _ => rewrite H
              end|].
  all: match goal with
       | |- Forall2 _ _ (PyTorchTensorRTCompiler.input_spec _ <$> _) =>
           apply (declared_inputs (Some HALF))
           || apply (declared_inputs (Some STATIC))
           || apply (declared_inputs (Some DYNAMIC))
           || apply (declared_inputs None)
       end.
Qed.

Lemma declared_input_dtypes_witness :
  ∃ d sample,
    Some (mkDataManager
            [[Scenario.token_ids; Scenario.pixels;
              mkTensor torch_int8 [1; 4] false]] (λ _, []) 1) = Some d
    ∧ head (dm_samples d) = Some sample
    ∧ Forall2 (λ t sp,
          in_shape sp = t_shape t
          ∧ in_dtype sp
            = if decide (t_dtype t = torch_int64) then torch_int32
              else if decide (Some HALF = Some HALF
                              ∧ t_dtype t ≠ torch_int8
                              ∧ t_dtype t ≠ torch_int32)
                   then torch_half else t_dtype t)
        sample
        [mkInput [1; 128] torch_int32; mkInput [1; 3; 224; 224] torch_half;
         mkInput [1; 4] torch_int8].
Proof.
  apply (declared_input_dtypes Scenario.backend GPU 0 Scenario.params
           (Some 0%nat) None (Some HALF)
           (Some (mkDataManager
                    [[Scenario.token_ids; Scenario.pixels;
                      mkTensor torch_int8 [1; 4] false]] (λ _, []) 1))
           Scenario.world (NNModule 1)
           [mkInput [1; 128] torch_int32; mkInput [1; 3; 224; 224] torch_half;
            mkInput [1; 4] torch_int8]
           [torch_float32; torch_half] None).
  vm_compute. find_event.
Defined.

(** X15: when a call of the native-graph strategy on a supported pair
    returns, [compiled_model] holds the artifact the embedded compiler
    returned, the compiler ran on the files as they were at the call, and
    the files afterwards are those the compiler left less
    [calibration.cache]: the cache is removed after every successful
    compilation, whatever the quantization type. *)
Theorem returned_artifact_and_files B device model mp tfms ths q data w :
  let o := PyTorchTensorRTCompiler.execute B device model mp tfms ths q
             data w in
  in_support_table device q →
  result o = Ok tt →
  ∃ h obj specs prec cal a files,
    torch_tensorrt_compile B h obj specs prec cal (fs w) = (Ok a, files)
    ∧ TrtCompile obj specs prec cal ∈ events o
    ∧ compiled_model (final o) = Some a
    ∧ fs (final o) = files ∖ {["calibration.cache"]}.
Proof.
  intros o Hq; subst o. by_wp. wp_exec.
  all: intros Hr; try discriminate Hr.
  all: world_simpl.
  all: eexists _, _, _, _, _, _, _; split; [eassumption|].
  all: split; [find_event|]; split; [reflexivity|].
  all: first [reflexivity | by apply without_absent_file].
Qed.

Lemma returned_artifact_and_files_witness :
  ∃ h obj specs prec cal a files,
    torch_tensorrt_compile Scenario.backend h obj specs prec cal
      (fs Scenario.world) = (Ok a, files)
    ∧ TrtCompile obj specs prec cal
      ∈ events (PyTorchTensorRTCompiler.execute Scenario.backend GPU 0
                  Scenario.params (Some 0%nat) None (Some STATIC)
                  (Some Scenario.data) Scenario.world)
    ∧ compiled_model
        (final (PyTorchTensorRTCompiler.execute Scenario.backend GPU 0
                  Scenario.params (Some 0%nat) None (Some STATIC)
                  (Some Scenario.data) Scenario.world)) = Some a
    ∧ fs (final (PyTorchTensorRTCompiler.execute Scenario.backend GPU 0
                   Scenario.params (Some 0%nat) None (Some STATIC)
                   (Some Scenario.data) Scenario.world))
      = files ∖ {["calibration.cache"]}.
Proof.
  apply (returned_artifact_and_files Scenario.backend GPU 0 Scenario.params
           (Some 0%nat) None (Some STATIC) (Some Scenario.data)
           Scenario.world).
  - by rewrite gpu_supports.
  - by vm_compute.
Defined.

(** X16: what a call of the native-graph strategy leaves alone.  It never
    assigns [model_orig]; it changes no pipeline but the one it is given,
    and that one only with half precision; it changes no torch module
    other than the model; the only file it removes is
    [calibration.cache]; and the files change only if the embedded
    compiler was called. *)
Theorem native_call_frame B device model mp tfms ths q data w :
  let o := PyTorchTensorRTCompiler.execute B device model mp tfms ths q
             data w in
  model_orig (final o) = model_orig w
  ∧ (q ≠ Some HALF → pipelines (final o) = pipelines w)
  ∧ (∀ p, tfms ≠ Some p → pipelines (final o) !! p = pipelines w !! p)
  ∧ (∀ l s, l ≠ model → heap w !! l = Some s → heap (final o) !! l = Some s)
  ∧ (∀ path, OsRemove path ∈ events o → path = "calibration.cache")
  ∧ ((∀ obj specs prec cal, TrtCompile obj specs prec cal ∉ events o) →
     fs (final o) = fs w).
Proof.
  intros o; subst o. by_wp. wp_exec.
  all: world_simpl.
  all: split; [reflexivity|].
  all: split; [first [reflexivity | by intros Hq]|].
  all: split;
    [ intros pl Hp; first [reflexivity | rewrite lookup_alter_ne; congruence]
    | ].
  all: split;
    [ intros loc st Hl Hs;
      pose proof (fresh_storage_other (heap w) loc model st cuda_eval Hs);
      by rewrite ?lookup_alter_ne, ?lookup_insert_ne, ?lookup_alter_ne
        by done
    | ].
  all: split; [intros path Hin; invert_event Hin; by inversion Hin|].
  all: intros Hno; first [ reflexivity | exfalso; eapply Hno; find_event ].
Qed.

(** ** The interchange-format strategy, phase by phase *)

(** X17: when a call of the interchange-format strategy on a supported
    pair returns, the file that was parsed, successfully, is the model file
    or its sibling, [compiled_model] holds the engine the builder returned
    for the network parsed from that file, and [model_orig] holds the path
    of that file, the sibling's when the sibling was parsed; when the call
    raises both attributes are as they were. *)
Theorem stored_engine_and_path B device model mp tfms ths q data w :
  let o := ONNXTensorRTCompiler.execute B device model mp tfms ths q
             data w in
  in_support_table device q →
  match result o with
  | Ok _ =>
      ∃ p cfg a,
        (p = model ∨ p = model +:+ "_simplified")
        ∧ ParseFromFile p true ∈ events o
        ∧ build_serialized_network B
            (mkNetwork (1 ≪ EXPLICIT_BATCH) (Some p)) cfg = Ok a
        ∧ compiled_model (final o) = Some a
        ∧ model_orig (final o) = Some p
  | Raise _ =>
      compiled_model (final o) = compiled_model w
      ∧ model_orig (final o) = model_orig w
  end.
Proof.
  intros o Hq; subst o. by_wp. wps_exec.
  all: try (split; reflexivity).
  all: match goal with
       | H : model_orig _ = _ ∧ _ |- _ => destruct H as [Hm Hrest]
       end.
  all: first
    [ by split
    | destruct Hrest as (cfg & a' & Hb & Hc & Hp);
      exists path, cfg, a'; split; [assumption|];
      split;
      [ cbn [app];
        repeat first
          [ exact Hp
          | apply list_elem_of_further
          | apply elem_of_app; right ]
      | split; [exact Hb|]; split; assumption ] ].
Qed.

Lemma stored_engine_and_path_witness :
  ∃ p cfg a,
    (p = "model.onnx" ∨ p = "model.onnx" +:+ "_simplified")
    ∧ ParseFromFile p true
      ∈ events (ONNXTensorRTCompiler.execute Scenario.backend GPU
                  "model.onnx" Scenario.params (Some 0%nat) None None
                  (Some Scenario.data) Scenario.world)
    ∧ build_serialized_network Scenario.backend
        (mkNetwork (1 ≪ EXPLICIT_BATCH) (Some p)) cfg = Ok a
    ∧ compiled_model
        (final (ONNXTensorRTCompiler.execute Scenario.backend GPU
                  "model.onnx" Scenario.params (Some 0%nat) None None
                  (Some Scenario.data) Scenario.world)) = Some a
    ∧ model_orig
        (final (ONNXTensorRTCompiler.execute Scenario.backend GPU
                  "model.onnx" Scenario.params (Some 0%nat) None None
                  (Some Scenario.data) Scenario.world)) = Some p.
Proof.
  assert (in_support_table GPU None) as H by (by rewrite gpu_supports).
  exact (stored_engine_and_path Scenario.backend GPU "model.onnx"
           Scenario.params (Some 0%nat) None None (Some Scenario.data)
           Scenario.world H).
Defined.

(** X18: when onnxsim is installed and a file already stands at the
    sibling path, the call reuses it as it is: no command is run, the
    files are not changed, the only file parsed is the sibling, and on
    success [model_orig] is the sibling's path. *)
Theorem existing_sibling_is_reused B device model mp tfms ths q data w :
  onnxsim_importable B = true →
  model +:+ "_simplified" ∈ fs w →
  let o := ONNXTensorRTCompiler.execute B device model mp tfms ths q
             data w in
  (∀ cmd, SubprocessRun cmd ∉ events o)
  ∧ fs (final o) = fs w
  ∧ (∀ p s, ParseFromFile p s ∈ events o → p = model +:+ "_simplified")
  ∧ (result o = Ok tt → in_support_table device q →
     model_orig (final o) = Some (model +:+ "_simplified")).
Proof.
  intros Hi Hs o; subst o. by_wp. wpx_exec.
  all: split; [intros cmd Hin; invert_event_x Hin|].
  all: split; [first [reflexivity | assumption]|].
  all: split; [intros p s Hin; by parse_event Hin|].
  all: intros Hr Hq; first
    [ discriminate Hr
    | subst; match goal with H : _ ∧ _ |- _ => exact (proj1 H) end
    | exfalso; eapply not_supported_cond; eassumption ].
Qed.

Lemma existing_sibling_is_reused_witness :
  fs (final (ONNXTensorRTCompiler.execute Scenario.backend GPU "model.onnx"
               Scenario.params (Some 0%nat) None None (Some Scenario.data)
               (set_fs {["model.onnx"; "model.onnx_simplified"]}
                  Scenario.world)))
  = fs (set_fs {["model.onnx"; "model.onnx_simplified"]} Scenario.world).
Proof.
  refine (proj1 (proj2 (existing_sibling_is_reused Scenario.backend GPU
            "model.onnx" Scenario.params (Some 0%nat) None None
            (Some Scenario.data)
            (set_fs {["model.onnx"; "model.onnx_simplified"]} Scenario.world)
            _ _))).
  - reflexivity.
  - apply (bool_decide_unpack _). by vm_compute.
Defined.





(** X21: when the simplification command runs and returns, its exit
    status is not looked at: whatever the status, the only file parsed is
    the sibling, in the files as the command left them, so the parse
    succeeds exactly when the parser accepts what stands at the sibling
    path then. *)
Theorem exit_status_is_ignored
    B device model mp tfms ths q data w status files :
  onnxsim_importable B = true →
  model +:+ "_simplified" ∉ fs w →
  subprocess_run B ["onnxsim"; model; model +:+ "_simplified"] (fs w)
  = (Ok status, files) →
  let o := ONNXTensorRTCompiler.execute B device model mp tfms ths q
             data w in
  ∀ p s,
    ParseFromFile p s ∈ events o →
    p = model +:+ "_simplified"
    ∧ s = (parse_from_file B (model +:+ "_simplified") files).1
    ∧ fs (final o) = files.
Proof.
  intros Hi Hs Hr o; subst o. by_wp. wpx_exec.
  all: intros p s Hin; parse_event Hin;
    match goal with
    | Hfs : fs ?w' = _ |- _ ∧ _ ∧ fs ?w' = _ =>
        rewrite Hfs; cbn [fs set_fs]; repeat split; congruence
    end.
Qed.

Lemma exit_status_is_ignored_witness :
  "model.onnx_simplified" = "model.onnx" +:+ "_simplified"
  ∧ false = (parse_from_file Scenario.unsimplifiable_backend
               ("model.onnx" +:+ "_simplified") (fs Scenario.world)).1
  ∧ fs (final (ONNXTensorRTCompiler.execute
                 Scenario.unsimplifiable_backend GPU "model.onnx"
                 Scenario.params (Some 0%nat) None None
                 (Some Scenario.data) Scenario.world))
    = fs Scenario.world.
Proof.
  refine (exit_status_is_ignored Scenario.unsimplifiable_backend GPU
            "model.onnx" Scenario.params (Some 0%nat) None None
            (Some Scenario.data) Scenario.world 1 (fs Scenario.world)
            _ _ _ "model.onnx_simplified" false _).
  - reflexivity.
  - apply (bool_decide_unpack _). by vm_compute.
  - reflexivity.
  - vm_compute. find_event.
Defined.



(** X23: the quantization of the builder configuration is requested only
    for the quantization type of the call, never without one; and whenever
    a call with a quantization type reaches the parser, the quantization
    was requested before. *)
Theorem quantizer_is_called_only_on_request
    B device model mp tfms ths q data w :
  let o := ONNXTensorRTCompiler.execute B device model mp tfms ths q
             data w in
  (∀ q', QuantizeTensorrt q' ∈ events o → q = Some q')
  ∧ (∀ p s q',
       ParseFromFile p s ∈ events o → q = Some q' →
       QuantizeTensorrt q' ∈ events o).
Proof.
  intros o; subst o. by_wp. wp_exec.
  all: split;
    [ intros q' Hin; invert_event Hin; by inversion Hin
    | intros p s q' Hin Hq';
      first [solve [invert_event Hin] | simplify_eq; find_event] ].
Qed.

(** X24: what a call of the interchange-format strategy leaves alone.  It
    changes no torch module; without a quantization type it changes no
    pipeline; and it changes the files only by running the simplification
    command. *)
Theorem interchange_call_frame B device model mp tfms ths q data w :
  let o := ONNXTensorRTCompiler.execute B device model mp tfms ths q
             data w in
  heap (final o) = heap w
  ∧ (q = None → pipelines (final o) = pipelines w)
  ∧ ((∀ cmd, SubprocessRun cmd ∉ events o) → fs (final o) = fs w).
Proof.
  intros o; subst o. by_wp. wpx_exec.
  all: world_simpl.
  all: split; [first [reflexivity | assumption]|].
  all: split; [first [reflexivity | assumption | by intros ->]|].
  all: intros Hno;
    first [ reflexivity | assumption | exfalso; eapply Hno; find_event ].
Qed.
